(** * Smart AC system server (RPiServer_v1.0.py): control state machine

    A shallow embedding of the MQTT message handler [on_message] and of the
    body of the main [while True] loop, together with the properties of the
    control state machine that the specification states about them.

    Modelling conventions.
    - The module-level globals of the script form the record [state].  The
      names [timeoutEndTimestamp] and [timeoutEndTime] are not bound when the
      script starts; they are [None] until the main loop first assigns them,
      and reading them while unbound raises [NameError].
    - The sentinel string "N/A" stored in [roomOccupancy] and
      [arduinoAvailable] is a constructor of its own ([OccNA], [AvailNA]);
      [systemMode] and [systemPowerState] stay strings, since the handler
      stores the payload itself.
    - One call of [on_message] and one iteration of the main loop are each
      run as one atomic step: the interleaving of the paho network thread
      with the main thread inside a step is not modelled.
    - Every call that leaves the process ([client.publish], [time.sleep],
      [print], the append to serverLog.txt) is recorded, in program order, in
      a list of [effect]s.  The text of an f-string log line is kept as a
      constructor of [log_msg] carrying the interpolated values.
    - Timestamps are whole microseconds (the resolution of [datetime]) in
      [Z]; binary64 rounding of [timestamp()] is not modelled.  Each call of
      [datetime.datetime.now()] in the loop body is a separate input.
    - Payloads are ASCII text: [py_int] and [py_float] follow the grammar of
      Python's [int] and [float] on ASCII input and reject other bytes;
      [py_int] has the default limit of 4300 digits.  Where a statement
      depends on a payload being refused, it assumes [is_ascii]. *)

From Stdlib Require Import ZArith List String Ascii Bool Lia.
Import ListNotations.
Local Open Scope string_scope.
Local Open Scope list_scope.
Local Open Scope Z_scope.

(** ** Python values held by the globals *)

(** [float(payload)]: the literal read, as [m * 10^e], an infinity or a NaN. *)
Inductive pyfloat : Type :=
| FNum (m e : Z)
| FInf (negative : bool)
| FNan.

(** [roomOccupancy]: the string "N/A" or an int. *)
Inductive occupancy : Type :=
| OccNA
| OccNum (n : Z).

(** [arduinoAvailable]: the string "N/A", [True] or [False]. *)
Inductive availability : Type :=
| AvailNA
| Avail (b : bool).

Record state : Type := mkState {
  arduinoAvailable : availability;
  arduinoTemp : option pyfloat;
  rpiTemp : option Z;
  roomOccupancy : occupancy;
  priorRoomOccupancy : option occupancy;
  systemMode : string;
  systemTargetTemp : Z;
  systemPowerState : string;
  timeoutState : bool;
  timeoutEndTimestamp : option Z;
  timeoutEndTime : option Z
}.

Definition set_arduinoAvailable (v : availability) (s : state) : state :=
  mkState v (arduinoTemp s) (rpiTemp s) (roomOccupancy s)
    (priorRoomOccupancy s) (systemMode s) (systemTargetTemp s)
    (systemPowerState s) (timeoutState s) (timeoutEndTimestamp s)
    (timeoutEndTime s).

Definition set_arduinoTemp (v : option pyfloat) (s : state) : state :=
  mkState (arduinoAvailable s) v (rpiTemp s) (roomOccupancy s)
    (priorRoomOccupancy s) (systemMode s) (systemTargetTemp s)
    (systemPowerState s) (timeoutState s) (timeoutEndTimestamp s)
    (timeoutEndTime s).

Definition set_rpiTemp (v : option Z) (s : state) : state :=
  mkState (arduinoAvailable s) (arduinoTemp s) v (roomOccupancy s)
    (priorRoomOccupancy s) (systemMode s) (systemTargetTemp s)
    (systemPowerState s) (timeoutState s) (timeoutEndTimestamp s)
    (timeoutEndTime s).

Definition set_roomOccupancy (v : occupancy) (s : state) : state :=
  mkState (arduinoAvailable s) (arduinoTemp s) (rpiTemp s) v
    (priorRoomOccupancy s) (systemMode s) (systemTargetTemp s)
    (systemPowerState s) (timeoutState s) (timeoutEndTimestamp s)
    (timeoutEndTime s).

Definition set_priorRoomOccupancy (v : option occupancy) (s : state) : state :=
  mkState (arduinoAvailable s) (arduinoTemp s) (rpiTemp s) (roomOccupancy s)
    v (systemMode s) (systemTargetTemp s)
    (systemPowerState s) (timeoutState s) (timeoutEndTimestamp s)
    (timeoutEndTime s).

Definition set_systemMode (v : string) (s : state) : state :=
  mkState (arduinoAvailable s) (arduinoTemp s) (rpiTemp s) (roomOccupancy s)
    (priorRoomOccupancy s) v (systemTargetTemp s)
    (systemPowerState s) (timeoutState s) (timeoutEndTimestamp s)
    (timeoutEndTime s).

Definition set_systemTargetTemp (v : Z) (s : state) : state :=
  mkState (arduinoAvailable s) (arduinoTemp s) (rpiTemp s) (roomOccupancy s)
    (priorRoomOccupancy s) (systemMode s) v
    (systemPowerState s) (timeoutState s) (timeoutEndTimestamp s)
    (timeoutEndTime s).

Definition set_systemPowerState (v : string) (s : state) : state :=
  mkState (arduinoAvailable s) (arduinoTemp s) (rpiTemp s) (roomOccupancy s)
    (priorRoomOccupancy s) (systemMode s) (systemTargetTemp s)
    v (timeoutState s) (timeoutEndTimestamp s)
    (timeoutEndTime s).

Definition set_timeoutState (v : bool) (s : state) : state :=
  mkState (arduinoAvailable s) (arduinoTemp s) (rpiTemp s) (roomOccupancy s)
    (priorRoomOccupancy s) (systemMode s) (systemTargetTemp s)
    (systemPowerState s) v (timeoutEndTimestamp s)
    (timeoutEndTime s).

Definition set_timeoutEndTimestamp (v : option Z) (s : state) : state :=
  mkState (arduinoAvailable s) (arduinoTemp s) (rpiTemp s) (roomOccupancy s)
    (priorRoomOccupancy s) (systemMode s) (systemTargetTemp s)
    (systemPowerState s) (timeoutState s) v
    (timeoutEndTime s).

Definition set_timeoutEndTime (v : option Z) (s : state) : state :=
  mkState (arduinoAvailable s) (arduinoTemp s) (rpiTemp s) (roomOccupancy s)
    (priorRoomOccupancy s) (systemMode s) (systemTargetTemp s)
    (systemPowerState s) (timeoutState s) (timeoutEndTimestamp s)
    v.

(** The globals as the script initialises them (lines 44-58). *)
Definition initial_state : state :=
  {| arduinoAvailable := AvailNA;
     arduinoTemp := None;
     rpiTemp := None;
     roomOccupancy := OccNA;
     priorRoomOccupancy := None;
     systemMode := "N/A";
     systemTargetTemp := 16;
     systemPowerState := "off";
     timeoutState := false;
     timeoutEndTimestamp := None;
     timeoutEndTime := None |}.

(** ** Constants of the script *)

Definition validPowerStates : list string := ["on"; "off"].
Definition validModes : list string := ["quiet"; "super"; "cooling"].
Definition validTemps : list Z := [16; 17; 18; 19; 20; 21; 22; 23; 24; 25].
Definition timeoutMinutes : Z := 5.

Definition globalLog := "SmartACSystem/global/log".
Definition serverLogNotice := "RPiServer/notice/log".
Definition serverTempCommand := "RPiServer/command/temp".
Definition serverModeCommand := "RPiServer/command/mode".
Definition serverPowerCommand := "RPiServer/command/power".
Definition serverTempRequest := "RPiServer/request/temp".
Definition arduinoLogNotice := "arduino/notice/log".
Definition arduinoTempNotice := "arduino/notice/temp".
Definition arduinoOccChangeNotice := "arduino/notice/occ_change".
Definition serverArduinoUpNotice := "RPiServer/notice/arduino_up".
Definition serverTempNotice_arduino := "RPiServer/notice/temp_arduino".
Definition serverTempNotice_rpi := "RPiServer/notice/temp_rpi".
Definition serverTargetTempNotice := "RPiServer/notice/temp_target".
Definition serverModeNotice := "RPiServer/notice/mode".
Definition serverPowerStateNotice := "RPiServer/notice/power".
Definition serverOccupancyNotice := "RPiServer/notice/occupancy".
Definition serverTimeoutNotice := "RPiServer/notice/timeout".
Definition userRefreshRequest := "user/request/all".
Definition userTempCommand := "user/command/temp".
Definition userModeCommand := "user/command/mode".
Definition userPowerCommand := "user/command/power".
Definition userUpdateOccCommand := "user/command/occ_change".

(** The topics [on_connect] subscribes to; [userUpdateOccCommand] is not
    among them. *)
Definition subscribeTopics : list string :=
  [arduinoLogNotice; arduinoTempNotice; arduinoOccChangeNotice;
   userRefreshRequest; userTempCommand; userModeCommand; userPowerCommand;
   serverLogNotice].

(** ** Builtins used by the script *)

(** Python's [x in xs] on a list of strings and on a list of ints. *)
Definition str_in (x : string) (xs : list string) : bool :=
  existsb (String.eqb x) xs.

Definition int_in (x : Z) (xs : list Z) : bool :=
  existsb (Z.eqb x) xs.

(** Python's [needle in hay] on strings. *)
Fixpoint contains (needle hay : string) : bool :=
  if prefix needle hay then true
  else match hay with
       | EmptyString => false
       | String _ rest => contains needle rest
       end.

(** [min(xs)] and [max(xs)] of a list of ints, given its head. *)
Definition list_min (x : Z) (xs : list Z) : Z := fold_left Z.min xs x.
Definition list_max (x : Z) (xs : list Z) : Z := fold_left Z.max xs x.

(** The whitespace [int] and [float] skip on an ASCII string: tab, line
    feed, vertical tab, form feed, carriage return and space. *)
Definition is_space (c : ascii) : bool :=
  let n := Z.of_nat (nat_of_ascii c) in
  ((9 <=? n) && (n <=? 13)) || (n =? 32).

Definition digit_val (c : ascii) : option Z :=
  let n := Z.of_nat (nat_of_ascii c) in
  if (48 <=? n) && (n <=? 57) then Some (n - 48) else None.

Fixpoint lstrip (s : string) : string :=
  match s with
  | String c rest => if is_space c then lstrip rest else s
  | EmptyString => EmptyString
  end.

Fixpoint rev_string (acc s : string) : string :=
  match s with
  | EmptyString => acc
  | String c rest => rev_string (String c acc) rest
  end.

(** [s.strip()] for ASCII whitespace. *)
Definition strip (s : string) : string :=
  rev_string "" (lstrip (rev_string "" (lstrip s))).

(** A [digitpart]: digits, single underscores allowed between two digits.
    Reads the longest one at the head of [s]; returns its value continued
    from [acc], the number of digits read and the rest of the string.
    [prev] tells whether the previous character was a digit. *)
Fixpoint digitpart (acc : Z) (count : Z) (prev : bool) (s : string)
  : option (Z * Z * string) :=
  match s with
  | EmptyString => if prev then Some (acc, count, s) else None
  | String c rest =>
      match digit_val c with
      | Some d => digitpart (10 * acc + d) (count + 1) true rest
      | None =>
          if prev then
            if Ascii.eqb c "_" then digitpart acc count false rest
            else Some (acc, count, s)
          else None
      end
  end.

Definition split_sign (s : string) : bool * string :=
  match s with
  | String c rest =>
      if Ascii.eqb c "-" then (true, rest)
      else if Ascii.eqb c "+" then (false, rest)
      else (false, s)
  | EmptyString => (false, s)
  end.

(** The default of [sys.int_max_str_digits]: [int] refuses a string with
    more digits, with [ValueError]. *)
Definition int_max_str_digits : Z := 4300.

(** [int(payload)]: [None] stands for [ValueError]. *)
Definition py_int (payload : string) : option Z :=
  let '(neg, body) := split_sign (strip payload) in
  match digitpart 0 0 false body with
  | Some (v, count, EmptyString) =>
      if count <=? int_max_str_digits
      then Some (if neg then - v else v)
      else None
  | _ => None
  end.

Definition lower (c : ascii) : ascii :=
  let n := nat_of_ascii c in
  if ((65 <=? n) && (n <=? 90))%nat then ascii_of_nat (n + 32) else c.

Fixpoint lower_string (s : string) : string :=
  match s with
  | EmptyString => EmptyString
  | String c rest => String (lower c) (lower_string rest)
  end.

(** The exponent of a float literal: empty, or [e]/[E], a sign and a
    digitpart, up to the end of the string. *)
Definition float_exponent (s : string) : option Z :=
  match s with
  | EmptyString => Some 0
  | String c rest =>
      if Ascii.eqb (lower c) "e" then
        let '(neg, body) := split_sign rest in
        match digitpart 0 0 false body with
        | Some (v, _, EmptyString) => Some (if neg then - v else v)
        | _ => None
        end
      else None
  end.

(** The fraction and exponent after the integer digits [ip] of a float
    literal ([have_int] tells whether there were any). *)
Definition float_tail (have_int : bool) (ip : Z) (s : string)
  : option (Z * Z) :=
  match s with
  | String "." rest =>
      match digitpart ip 0 false rest with
      | Some (m, k, rest') =>
          match float_exponent rest' with
          | Some e => Some (m, e - k)
          | None => None
          end
      | None =>
          if have_int then
            match float_exponent rest with
            | Some e => Some (ip, e)
            | None => None
            end
          else None
      end
  | _ =>
      if have_int then
        match float_exponent s with
        | Some e => Some (ip, e)
        | None => None
        end
      else None
  end.

(** [float(payload)]: [None] stands for [ValueError]. *)
Definition py_float (payload : string) : option pyfloat :=
  let '(neg, body) := split_sign (strip payload) in
  let word := lower_string body in
  if String.eqb word "inf" || String.eqb word "infinity" then Some (FInf neg)
  else if String.eqb word "nan" then Some FNan
  else
    let r :=
      match digitpart 0 0 false body with
      | Some (ip, _, rest) => float_tail true ip rest
      | None => float_tail false 0 body
      end in
    match r with
    | Some (m, e) => Some (FNum (if neg then - m else m) e)
    | None => None
    end.

(** [is_number(var)] for the values [roomOccupancy] takes. *)
Definition is_number (v : occupancy) : bool :=
  match v with
  | OccNum _ => true
  | OccNA => false
  end.

(** [a > k] and [a == k] for an int [k]; Python compares a string with an
    int as unequal, and the script only evaluates [>] behind [is_number]. *)
Definition num_gt (v : occupancy) (k : Z) : bool :=
  match v with
  | OccNum n => n >? k
  | OccNA => false
  end.

Definition occ_eq_int (v : occupancy) (k : Z) : bool :=
  match v with
  | OccNum n => n =? k
  | OccNA => false
  end.

(** [arduinoAvailable == False]. *)
Definition avail_is_false (v : availability) : bool :=
  match v with
  | Avail false => true
  | _ => false
  end.

(** ** What the process sends out *)

(** The f-string log lines, by the values they interpolate. *)
Inductive log_msg : Type :=
| LogTempReceived (t : pyfloat)
| LogInvalidTemp (payload : string)
| LogOccChange (prior : option occupancy) (new : occupancy)
| LogInvalidOccChange (payload : string)
| LogRefresh
| LogPowerForwarded (payload : string)
| LogInvalidPower (payload : string)
| LogModeForwarded (payload : string)
| LogInvalidMode (payload : string)
| LogTempForwarded (temp : Z)
| LogTempOutOfRange (temp lo hi : Z)
| LogInvalidTargetTemp (payload : string)
| LogInvalidOccFigure (newOccupancy : Z)
| LogInvalidOccUpdate (payload : string)
| LogArduinoNoResponse
| LogRequestingTemp
| LogTempsRecorded (arduino : option pyfloat) (rpi : option Z)
| LogTimeoutTriggered (deadline : Z)
| LogTimeoutCancelled
| LogTimeoutExpired
| LogTimerCancelledOff.

(** The payload argument of [client.publish]. *)
Inductive pyval : Type :=
| VNone
| VStr (s : string)
| VInt (z : Z)
| VFloat (f : pyfloat)
| VBool (b : bool)
| VLog (m : log_msg)
| VLogLine (topic payload : string)
| VTimeHM (deadline : Z).

Inductive effect : Type :=
| Publish (topic : string) (payload : pyval)
| Sleep (milliseconds : Z)
| Print (text : string)
| AppendLog (topic payload : string).

Definition val_of_float (v : option pyfloat) : pyval :=
  match v with
  | Some f => VFloat f
  | None => VNone
  end.

Definition val_of_int (v : option Z) : pyval :=
  match v with
  | Some z => VInt z
  | None => VNone
  end.

Definition val_of_occ (v : occupancy) : pyval :=
  match v with
  | OccNum n => VInt n
  | OccNA => VStr "N/A"
  end.

Definition val_of_avail (v : availability) : pyval :=
  match v with
  | Avail b => VBool b
  | AvailNA => VStr "N/A"
  end.

(** ** The monad of a handler body

    A body reads and writes the globals, appends to the effects, and ends
    in one of three ways: it runs to its end ([Next]), it leaves early
    ([Exit]: a [return] in [on_message], the [continue] of the main loop),
    or it raises an exception that nothing in the script catches
    ([Raise]). *)

Inductive exn : Type :=
| NameError (name : string)
| TypeError.

Inductive signal (A : Type) : Type :=
| Next (a : A)
| Exit
| Raise (e : exn).

Arguments Next {A} a.
Arguments Exit {A}.
Arguments Raise {A} e.

Definition M (A : Type) : Type := state -> signal A * state * list effect.

Definition ret {A : Type} (a : A) : M A := fun s => (Next a, s, []).

Definition bind {A B : Type} (m : M A) (f : A -> M B) : M B := fun s =>
  match m s with
  | (Next a, s1, o1) => let '(r, s2, o2) := f a s1 in (r, s2, o1 ++ o2)
  | (Exit, s1, o1) => (Exit, s1, o1)
  | (Raise e, s1, o1) => (Raise e, s1, o1)
  end.

Declare Scope py_scope.
Delimit Scope py_scope with py.
Notation "x <- m ;; k" := (bind m (fun x => k))
  (at level 61, m at next level, right associativity) : py_scope.
Notation "m ;; k" := (bind m (fun _ => k))
  (at level 61, right associativity) : py_scope.
Local Open Scope py_scope.

Definition get : M state := fun s => (Next s, s, []).
Definition gets {A : Type} (f : state -> A) : M A := fun s => (Next (f s), s, []).
Definition modify (f : state -> state) : M unit := fun s => (Next tt, f s, []).
Definition emit (e : effect) : M unit := fun s => (Next tt, s, [e]).
Definition leave {A : Type} : M A := fun s => (Exit, s, []).
Definition raise {A : Type} (e : exn) : M A := fun s => (Raise e, s, []).
Definition when (b : bool) (m : M unit) : M unit := if b then m else ret tt.

Definition publish (topic : string) (payload : pyval) : M unit :=
  emit (Publish topic payload).
Definition sleep (milliseconds : Z) : M unit := emit (Sleep milliseconds).

(** Reading a global that the main loop binds late. *)
Definition read_timeoutEndTimestamp : M Z :=
  v <- gets timeoutEndTimestamp ;;
  match v with
  | Some t => ret t
  | None => raise (NameError "timeoutEndTimestamp")
  end.

Definition read_timeoutEndTime : M Z :=
  v <- gets timeoutEndTime ;;
  match v with
  | Some t => ret t
  | None => raise (NameError "timeoutEndTime")
  end.

Definition signal_of {A : Type} (r : signal A * state * list effect) : signal A :=
  fst (fst r).
Definition state_after {A : Type} (r : signal A * state * list effect) : state :=
  snd (fst r).
Definition effects_of {A : Type} (r : signal A * state * list effect) : list effect :=
  snd r.

(** ** [on_message], block by block (lines 104-226) *)

(** Temperature notification from Arduino (lines 119-126). *)
Definition handle_arduinoTempNotice (payload : string) : M unit :=
  modify (set_arduinoAvailable (Avail true)) ;;
  match py_float payload with
  | Some t =>
      modify (set_arduinoTemp (Some t)) ;;
      publish serverLogNotice (VLog (LogTempReceived t))
  | None => publish serverLogNotice (VLog (LogInvalidTemp payload))
  end.

(** Occupancy change notification from Arduino (lines 130-142).  The
    [except ValueError] catches the failure of [int(payload)] only; adding an
    int to the string "N/A" raises [TypeError], which is not caught. *)
Definition handle_arduinoOccChangeNotice (payload : string) : M unit :=
  power <- gets systemPowerState ;;
  when (power =? "off")%string leave ;;
  match py_int payload with
  | Some occChange =>
      prior <- gets roomOccupancy ;;
      modify (set_priorRoomOccupancy (Some prior)) ;;
      n <- match prior with
           | OccNum n => ret (n + occChange)
           | OccNA => raise TypeError
           end ;;
      modify (set_roomOccupancy (OccNum n)) ;;
      when (n <? 0) (modify (set_roomOccupancy (OccNum 0))) ;;
      s <- get ;;
      publish serverLogNotice
        (VLog (LogOccChange (priorRoomOccupancy s) (roomOccupancy s)))
  | None => publish serverLogNotice (VLog (LogInvalidOccChange payload))
  end.

(** User client data refresh (lines 145-158). *)
Definition handle_userRefreshRequest : M unit :=
  s <- get ;;
  publish serverTempNotice_arduino (val_of_float (arduinoTemp s)) ;;
  publish serverTempNotice_rpi (val_of_int (rpiTemp s)) ;;
  publish serverPowerStateNotice (VStr (systemPowerState s)) ;;
  publish serverModeNotice (VStr (systemMode s)) ;;
  publish serverTargetTempNotice (VInt (systemTargetTemp s)) ;;
  publish serverOccupancyNotice (val_of_occ (roomOccupancy s)) ;;
  publish serverArduinoUpNotice (val_of_avail (arduinoAvailable s)) ;;
  timeoutString <-
    (if (systemPowerState s =? "off")%string || negb (timeoutState s)
     then ret (VStr "N/A")
     else t <- read_timeoutEndTime ;; ret (VTimeHM t)) ;;
  publish serverTimeoutNotice timeoutString ;;
  publish serverLogNotice (VLog LogRefresh).

(** Power on and off (lines 162-185); the block ends in [return]. *)
Definition handle_userPowerCommand (payload : string) : M unit :=
  (if str_in payload validPowerStates then
     publish serverPowerCommand (VStr payload) ;;
     publish serverLogNotice (VLog (LogPowerForwarded payload)) ;;
     power <- gets systemPowerState ;;
     when ((power =? "off")%string && (payload =? "on")%string)
       (sleep 500 ;;
        publish serverModeCommand (VStr "super") ;;
        sleep 500 ;;
        target <- gets systemTargetTemp ;;
        publish serverTempCommand (VInt target) ;;
        occ <- gets roomOccupancy ;;
        when (negb (is_number occ)) (modify (set_roomOccupancy (OccNum 0))) ;;
        modify (set_systemMode "super")) ;;
     power <- gets systemPowerState ;;
     when ((power =? "on")%string && (payload =? "off")%string)
       (modify (set_roomOccupancy OccNA) ;;
        modify (set_systemMode "N/A")) ;;
     modify (set_systemPowerState payload)
   else
     publish serverLogNotice (VLog (LogInvalidPower payload))) ;;
  leave.

(** Change AC mode (lines 187-193). *)
Definition handle_userModeCommand (payload : string) : M unit :=
  if str_in payload validModes then
    publish serverModeCommand (VStr payload) ;;
    publish serverLogNotice (VLog (LogModeForwarded payload)) ;;
    modify (set_systemMode payload)
  else
    publish serverLogNotice (VLog (LogInvalidMode payload)).

(** Change AC temp (lines 195-205). *)
Definition handle_userTempCommand (payload : string) : M unit :=
  match py_int payload with
  | Some temp =>
      if int_in temp validTemps then
        publish serverTempCommand (VInt temp) ;;
        publish serverLogNotice (VLog (LogTempForwarded temp)) ;;
        modify (set_systemTargetTemp temp)
      else
        publish serverLogNotice
          (VLog (LogTempOutOfRange temp
                   (list_min (hd 0 validTemps) validTemps)
                   (list_max (hd 0 validTemps) validTemps)))
  | None => publish serverLogNotice (VLog (LogInvalidTargetTemp payload))
  end.

(** Update occupancy (lines 207-217). *)
Definition handle_userUpdateOccCommand (payload : string) : M unit :=
  emit (Print "Update occupancy command received") ;;
  match py_int payload with
  | Some newOccupancy =>
      if newOccupancy >=? 0 then
        prior <- gets roomOccupancy ;;
        modify (set_priorRoomOccupancy (Some prior)) ;;
        modify (set_roomOccupancy (OccNum newOccupancy))
      else
        publish serverLogNotice (VLog (LogInvalidOccFigure newOccupancy))
  | None => publish serverLogNotice (VLog (LogInvalidOccUpdate payload))
  end.

(** Write any logs to a logfile and re-emit them (lines 221-226). *)
Definition write_log (topic payload : string) : M unit :=
  emit (AppendLog topic payload) ;;
  publish globalLog (VLogLine topic payload).

Definition on_message (topic payload : string) : M unit :=
  when (topic =? arduinoTempNotice)%string (handle_arduinoTempNotice payload) ;;
  when (topic =? arduinoOccChangeNotice)%string
    (handle_arduinoOccChangeNotice payload) ;;
  when (topic =? userRefreshRequest)%string handle_userRefreshRequest ;;
  when (topic =? userPowerCommand)%string (handle_userPowerCommand payload) ;;
  when (topic =? userModeCommand)%string (handle_userModeCommand payload) ;;
  when (topic =? userTempCommand)%string (handle_userTempCommand payload) ;;
  when (topic =? userUpdateOccCommand)%string
    (handle_userUpdateOccCommand payload) ;;
  when (contains "/notice/log" topic) (write_log topic payload).

(** ** One iteration of the main loop (lines 249-300) *)

(** [rpiTempSensor.temperature]: a reading, or the [RuntimeError] of a
    failed read with its message. *)
Inductive sensor_result : Type :=
| SensorOk (t : option Z)
| SensorFail (message : string).

(** What one iteration reads from outside: the clock at the three calls of
    [datetime.datetime.now()] (lines 251, 277, 288), in microseconds, and the
    sensor. *)
Record tick_env : Type := mkEnv {
  now_poll : Z;
  sensor : sensor_result;
  now_arm : Z;
  now_expiry : Z
}.

Definition microseconds : Z := 1000000.

(** [int(datetime.datetime.now().timestamp()) % 60 == 0]. *)
Definition poll_due (now : Z) : bool :=
  (Z.quot now microseconds) mod 60 =? 0.

(** Every minute, request the temperature from the Arduino and read the
    local sensor (lines 251-267); a failed read ends the iteration with
    [continue]. *)
Definition poll_block (env : tick_env) : M unit :=
  avail <- gets arduinoAvailable ;;
  when (avail_is_false avail)
    (publish serverLogNotice (VLog LogArduinoNoResponse) ;;
     modify (set_arduinoTemp None)) ;;
  modify (set_arduinoAvailable (Avail false)) ;;
  publish serverLogNotice (VLog LogRequestingTemp) ;;
  publish serverTempRequest (VStr "0") ;;
  match sensor env with
  | SensorOk t => modify (set_rpiTemp t)
  | SensorFail message => emit (Print message) ;; leave
  end ;;
  s <- get ;;
  publish serverLogNotice (VLog (LogTempsRecorded (arduinoTemp s) (rpiTemp s))).

(** Once the room is occupied, turn the AC to quiet mode (lines 270-272). *)
Definition quiet_rule : M unit :=
  s <- get ;;
  when (is_number (roomOccupancy s) && num_gt (roomOccupancy s) 0
        && negb (systemMode s =? "quiet")%string)
    (publish serverModeCommand (VStr "quiet") ;;
     modify (set_systemMode "quiet")).

(** Start the timer when occupancy is 0 (lines 275-280). *)
Definition arm_check (env : tick_env) : M unit :=
  s <- get ;;
  when ((systemPowerState s =? "on")%string && occ_eq_int (roomOccupancy s) 0
        && negb (timeoutState s))
    (let deadline := now_arm env + timeoutMinutes * 60 * microseconds in
     modify (set_timeoutEndTimestamp (Some deadline)) ;;
     modify (set_timeoutEndTime (Some deadline)) ;;
     publish serverLogNotice (VLog (LogTimeoutTriggered deadline)) ;;
     modify (set_timeoutState true)).

(** Cancel the timer when the room is reoccupied (lines 283-285). *)
Definition reoccupy_cancel : M unit :=
  s <- get ;;
  when (is_number (roomOccupancy s) && num_gt (roomOccupancy s) 0
        && timeoutState s)
    (modify (set_timeoutState false) ;;
     publish serverLogNotice (VLog LogTimeoutCancelled)).

(** Turn the system off when the timer has run out (lines 288-293); the
    deadline is read only when [timeoutState] is [True]. *)
Definition expiry_check (env : tick_env) : M unit :=
  active <- gets timeoutState ;;
  expired <-
    (if active
     then deadline <- read_timeoutEndTimestamp ;; ret (now_expiry env >? deadline)
     else ret false) ;;
  when expired
    (publish serverPowerCommand (VStr "off") ;;
     modify (set_systemPowerState "off") ;;
     modify (set_timeoutState false) ;;
     modify (set_roomOccupancy OccNA) ;;
     publish serverLogNotice (VLog LogTimeoutExpired)).

(** Cancel the timer when the system was switched off by hand
    (lines 296-298). *)
Definition off_cancel : M unit :=
  s <- get ;;
  when ((systemPowerState s =? "off")%string && timeoutState s)
    (modify (set_timeoutState false) ;;
     publish serverLogNotice (VLog LogTimerCancelledOff)).

(** The rules that follow the poll (lines 269-300), down to
    [time.sleep(1)]. *)
Definition evaluate_rules (env : tick_env) : M unit :=
  quiet_rule ;;
  arm_check env ;;
  reoccupy_cancel ;;
  expiry_check env ;;
  off_cancel ;;
  sleep 1000.

Definition main_loop_body (env : tick_env) : M unit :=
  when (poll_due (now_poll env)) (poll_block env) ;;
  evaluate_rules env.

(** The iteration polls and its sensor read fails. *)
Definition cut_short (env : tick_env) : bool :=
  poll_due (now_poll env)
  && match sensor env with
     | SensorFail _ => true
     | SensorOk _ => false
     end.

(** ** Runs of the system *)

(** The two activities that change the globals: a delivered message and an
    iteration of the main loop. *)
Inductive event : Type :=
| Message (topic payload : string)
| Iteration (env : tick_env).

Definition exec (e : event) : M unit :=
  match e with
  | Message topic payload => on_message topic payload
  | Iteration env => main_loop_body env
  end.

(** The globals after an event, however its body ended. *)
Definition step (s : state) (e : event) : state := state_after (exec e s).

Definition run_events (es : list event) (s : state) : state :=
  fold_left step es s.

(** All the effects of a run, in order. *)
Fixpoint run_effects (es : list event) (s : state) : list effect :=
  match es with
  | [] => []
  | e :: rest => effects_of (exec e s) ++ run_effects rest (step s e)
  end.

(** States reached from the initial one by events that [allowed] admits in
    the state they arrive in. *)
Inductive reachable_by (allowed : state -> event -> Prop) : state -> Prop :=
| reach_init : reachable_by allowed initial_state
| reach_step (s : state) (e : event) :
    reachable_by allowed s -> allowed s e -> reachable_by allowed (step s e).

(** Any message, on any topic, and any iteration. *)
Definition any_event (s : state) (e : event) : Prop := True.

(** Messages on the topics the client subscribed to, and any iteration. *)
Definition subscribed (s : state) (e : event) : Prop :=
  match e with
  | Message topic _ => In topic subscribeTopics
  | Iteration _ => True
  end.

Definition reachable : state -> Prop := reachable_by subscribed.

(** ** Commands to the actuator *)

Definition is_command_topic (topic : string) : bool :=
  (topic =? serverPowerCommand)%string || (topic =? serverModeCommand)%string
  || (topic =? serverTempCommand)%string.

(** The commands sent to the air conditioner, in order. *)
Fixpoint commands (out : list effect) : list (string * pyval) :=
  match out with
  | [] => []
  | Publish topic v :: rest =>
      if is_command_topic topic then (topic, v) :: commands rest
      else commands rest
  | _ :: rest => commands rest
  end.

(** Every command after the first comes at least [gap] milliseconds of
    [time.sleep] after the command before it; [slept] is the time slept since
    the last command, [None] before the first one. *)
Fixpoint spaced (gap : Z) (slept : option Z) (out : list effect) : bool :=
  match out with
  | [] => true
  | Publish topic _ :: rest =>
      if is_command_topic topic then
        match slept with
        | Some t => (gap <=? t) && spaced gap (Some 0) rest
        | None => spaced gap (Some 0) rest
        end
      else spaced gap slept rest
  | Sleep ms :: rest =>
      spaced gap (option_map (Z.add ms) slept) rest
  | _ :: rest => spaced gap slept rest
  end.

Definition is_power_off (e : effect) : bool :=
  match e with
  | Publish topic (VStr v) =>
      (topic =? serverPowerCommand)%string && (v =? "off")%string
  | _ => false
  end.

(** The iteration switches the system off on the expired timer. *)
Definition timer_fires (s : state) (e : event) : bool :=
  match e with
  | Iteration env => existsb is_power_off (effects_of (main_loop_body env s))
  | Message _ _ => false
  end.

(** A mode command that the handler accepts while the power is off. *)
Definition mode_command_while_off (s : state) (e : event) : bool :=
  match e with
  | Message topic payload =>
      (topic =? userModeCommand)%string && str_in payload validModes
      && (systemPowerState s =? "off")%string
  | Iteration _ => false
  end.

(** Subscribed events other than those two. *)
Definition subscribed_plain (s : state) (e : event) : Prop :=
  subscribed s e /\ mode_command_while_off s e = false
  /\ timer_fires s e = false.

(** ** Invariants of the globals *)

(** [systemPowerState] holds one of the two literals. *)
Definition power_known (s : state) : Prop :=
  systemPowerState s = "on" \/ systemPowerState s = "off".

(** While the power is on, [roomOccupancy] holds an int. *)
Definition occ_tracked (s : state) : Prop :=
  systemPowerState s = "on" -> is_number (roomOccupancy s) = true.

(** An int in [roomOccupancy] is not negative. *)
Definition occ_nonneg (s : state) : Prop :=
  forall n, roomOccupancy s = OccNum n -> 0 <= n.

(** While the timer runs, both names of its deadline are bound. *)
Definition deadline_bound (s : state) : Prop :=
  timeoutState s = true ->
  timeoutEndTimestamp s <> None /\ timeoutEndTime s <> None.

Definition well_formed (s : state) : Prop :=
  power_known s /\ occ_tracked s /\ occ_nonneg s /\ deadline_bound s.

(** While the power is off, [roomOccupancy] is "N/A". *)
Definition off_untracked (s : state) : Prop :=
  systemPowerState s = "off" -> roomOccupancy s = OccNA.

(** While the power is off, [systemMode] is "N/A". *)
Definition off_unset (s : state) : Prop :=
  systemPowerState s = "off" -> systemMode s = "N/A".

(** The body ended without an uncaught exception. *)
Definition no_raise {A : Type} (r : signal A * state * list effect) : Prop :=
  match signal_of r with
  | Raise _ => False
  | _ => True
  end.

(** ** Inputs of the scenarios *)

(** An iteration at [t] microseconds whose sensor read, if any, succeeds. *)
Definition tick_at (t : Z) : tick_env :=
  {| now_poll := t; sensor := SensorOk (Some 22);
     now_arm := t; now_expiry := t |}.

(** An iteration at [t] microseconds whose sensor read, if any, fails. *)
Definition failing_tick_at (t : Z) : tick_env :=
  {| now_poll := t; sensor := SensorFail "Checksum did not validate";
     now_arm := t; now_expiry := t |}.

(** Scenario C up to the delta of -2: power on, two people in, an iteration
    at second 1. *)
Definition occupied_state : state :=
  run_events
    [Message userPowerCommand "on";
     Message arduinoOccChangeNotice "2";
     Iteration (tick_at 1000000)]
    initial_state.

(** Both people out again. *)
Definition vacated_state : state :=
  step occupied_state (Message arduinoOccChangeNotice "-2").

(** The timer armed by the iteration at second 2: the deadline is second
    302. *)
Definition armed_state : state :=
  step vacated_state (Iteration (tick_at 2000000)).

(** One person back in while the timer runs. *)
Definition reoccupied_state : state :=
  step armed_state (Message arduinoOccChangeNotice "1").

(** Power on and one person in, before any iteration. *)
Definition entered_state : state :=
  run_events
    [Message userPowerCommand "on"; Message arduinoOccChangeNotice "1"]
    initial_state.

(** ** Preservation of a predicate on the globals *)

(** From globals that satisfy [P], the body ends in globals that satisfy
    [P], and not by an uncaught exception. *)
Definition preserves {A : Type} (P : state -> Prop) (m : M A) : Prop :=
  forall s, P s -> P (state_after (m s)) /\ no_raise (m s).

(** Three strengths of invariant: the basic one holds along every run;
    [Tracking] adds that a powered-off system has no occupancy; [Strict]
    adds that it has no mode either. *)
Inductive level : Type :=
| Basic
| Tracking
| Strict.

Definition invariant (l : level) (s : state) : Prop :=
  well_formed s
  /\ match l with
     | Basic => True
     | Tracking => off_untracked s
     | Strict => off_untracked s /\ off_unset s
     end.

(** Every event of the run is admitted in the state it arrives in. *)
Fixpoint admitted (allowed : state -> event -> Prop) (es : list event)
  (s : state) : Prop :=
  match es with
  | [] => True
  | e :: rest => allowed s e /\ admitted allowed rest (step s e)
  end.

(** The power is on and [n] people, at least one, are in the room. *)
Definition occupied_on (n : Z) (s : state) : Prop :=
  systemPowerState s = "on" /\ roomOccupancy s = OccNum n /\ 0 < n.

(** The message of the failed sensor read, if the read fails. *)
Definition failure_message (env : tick_env) : string :=
  match sensor env with
  | SensorFail message => message
  | SensorOk _ => ""
  end.

(** ** Further predicates on the globals and on runs *)

(** From globals that satisfy [Q], the body ends in globals that satisfy
    [Q], however it ends. *)
Definition keeps {A : Type} (Q : state -> Prop) (m : M A) : Prop :=
  forall s, Q s -> Q (state_after (m s)).

(** The topics [on_message] has a block for. *)
Definition handled_topics : list string :=
  [arduinoTempNotice; arduinoOccChangeNotice; userRefreshRequest;
   userPowerCommand; userModeCommand; userTempCommand; userUpdateOccCommand].

(** [systemTargetTemp] is one of [validTemps]. *)
Definition target_valid (s : state) : Prop :=
  int_in (systemTargetTemp s) validTemps = true.

(** [systemMode] is "N/A" or one of [validModes]. *)
Definition mode_known (s : state) : Prop :=
  systemMode s = "N/A" \/ str_in (systemMode s) validModes = true.

(** The two names of the deadline are bound together, to the same instant. *)
Definition deadlines_agree (s : state) : Prop :=
  timeoutEndTimestamp s = timeoutEndTime s.

(** The event is a temperature report of the Arduino. *)
Definition is_temp_report (e : event) : bool :=
  match e with
  | Message topic _ => (topic =? arduinoTempNotice)%string
  | Iteration _ => false
  end.

(** The event is a temperature command of the user. *)
Definition is_temp_command (e : event) : bool :=
  match e with
  | Message topic _ => (topic =? userTempCommand)%string
  | Iteration _ => false
  end.

(** The log line "Arduino did not respond" is among the effects. *)
Definition no_response_logged (out : list effect) : bool :=
  existsb
    (fun e =>
       match e with
       | Publish topic (VLog LogArduinoNoResponse) =>
           (topic =? serverLogNotice)%string
       | _ => false
       end)
    out.

(** [roomOccupancy += occChange] followed by the floor at 0. *)
Definition apply_delta (n occChange : Z) : Z := Z.max 0 (n + occChange).

(** What the refresh handler publishes as the timeout. *)
Definition timeout_notice (s : state) : pyval :=
  if (systemPowerState s =? "off")%string || negb (timeoutState s)
  then VStr "N/A"
  else match timeoutEndTime s with
       | Some d => VTimeHM d
       | None => VNone
       end.

(** The occupancy after a list of deltas, each floored at 0. *)
Definition apply_deltas (n : Z) (deltas : list Z) : Z :=
  fold_left apply_delta deltas n.

(** A command the actuator understands: a power literal, a valid mode or a
    valid temperature, each on its own topic. *)
Definition valid_command (c : string * pyval) : bool :=
  match c with
  | (topic, VStr v) =>
      ((topic =? serverPowerCommand)%string && str_in v validPowerStates)
      || ((topic =? serverModeCommand)%string && str_in v validModes)
  | (topic, VInt t) =>
      (topic =? serverTempCommand)%string && int_in t validTemps
  | _ => false
  end.

(** Every character of the payload is an ASCII character. *)
Fixpoint is_ascii (s : string) : bool :=
  match s with
  | EmptyString => true
  | String c rest => (nat_of_ascii c <? 128)%nat && is_ascii rest
  end.

(** The string of [k] copies of a character. *)
Fixpoint repeat_char (c : ascii) (k : nat) : string :=
  match k with
  | O => EmptyString
  | S k' => String c (repeat_char c k')
  end.

(** * Properties *)

(** ** Running a body on symbolic globals *)

(** Unfolds the monad, the handlers and the record operations, and leaves
    the tests on strings and payloads folded. *)
Ltac run_py :=
  cbv beta iota zeta delta
    [bind ret get gets modify emit leave raise when publish sleep
     read_timeoutEndTimestamp read_timeoutEndTime
     signal_of state_after effects_of no_raise step exec
     on_message handle_arduinoTempNotice handle_arduinoOccChangeNotice
     handle_userRefreshRequest handle_userPowerCommand handle_userModeCommand
     handle_userTempCommand handle_userUpdateOccCommand write_log
     main_loop_body evaluate_rules poll_block quiet_rule arm_check reoccupy_cancel
     expiry_check off_cancel
     set_arduinoAvailable set_arduinoTemp set_rpiTemp set_roomOccupancy
     set_priorRoomOccupancy set_systemMode set_systemTargetTemp
     set_systemPowerState set_timeoutState set_timeoutEndTimestamp
     set_timeoutEndTime
     arduinoAvailable arduinoTemp rpiTemp roomOccupancy priorRoomOccupancy
     systemMode systemTargetTemp systemPowerState timeoutState
     timeoutEndTimestamp timeoutEndTime
     now_poll sensor now_arm now_expiry
     is_number num_gt occ_eq_int avail_is_false
     andb orb negb app fst snd].

(** Evaluates the tests whose arguments are closed. *)
Ltac eval_tests :=
  repeat match goal with
    | |- context [String.eqb ?a ?b] =>
        let v := eval vm_compute in (String.eqb a b) in
        lazymatch v with
        | true => change (String.eqb a b) with true
        | false => change (String.eqb a b) with false
        end
    | |- context [contains ?a ?b] =>
        let v := eval vm_compute in (contains a b) in
        lazymatch v with
        | true => change (contains a b) with true
        | false => change (contains a b) with false
        end
    | |- context [str_in ?a ?b] =>
        let v := eval vm_compute in (str_in a b) in
        lazymatch v with
        | true => change (str_in a b) with true
        | false => change (str_in a b) with false
        end
    | |- context [Z.gtb ?a ?b] =>
        let v := eval vm_compute in (Z.gtb a b) in
        lazymatch v with
        | true => change (Z.gtb a b) with true
        | false => change (Z.gtb a b) with false
        end
    | |- context [Z.eqb ?a ?b] =>
        let v := eval vm_compute in (Z.eqb a b) in
        lazymatch v with
        | true => change (Z.eqb a b) with true
        | false => change (Z.eqb a b) with false
        end
    | |- context [Z.ltb ?a ?b] =>
        let v := eval vm_compute in (Z.ltb a b) in
        lazymatch v with
        | true => change (Z.ltb a b) with true
        | false => change (Z.ltb a b) with false
        end
    | |- context [poll_due ?a] =>
        let v := eval vm_compute in (poll_due a) in
        lazymatch v with
        | true => change (poll_due a) with true
        | false => change (poll_due a) with false
        end
    end.

Ltac run_body := repeat (progress (run_py; eval_tests)).

(** Splits on the innermost scrutinee of a [match] or [if]. *)
Ltac case_scrutinee :=
  match goal with
  | |- context [match ?c with _ => _ end] =>
      lazymatch c with
      | context [match _ with _ => _ end] => fail
      | _ => destruct c eqn:?
      end
  end.

Ltac break_state s :=
  destruct s as [av at_ rt occ prior mode target power ts tet tt_].

Ltac open_inv :=
  unfold invariant, well_formed, power_known, occ_tracked, occ_nonneg,
    deadline_bound, off_untracked, off_unset in *;
  cbn [arduinoAvailable arduinoTemp rpiTemp roomOccupancy priorRoomOccupancy
       systemMode systemTargetTemp systemPowerState timeoutState
       timeoutEndTimestamp timeoutEndTime is_number] in *.

Ltac close_inv :=
  open_inv;
  repeat match goal with H : _ /\ _ |- _ => destruct H end;
  repeat split; intros;
  repeat match goal with
    | H : OccNum _ = OccNum _ |- _ => injection H as H; subst
    | H : Some _ = Some _ |- _ => injection H as H; subst
    end;
  try discriminate; try congruence; try lia; try tauto;
  try solve [eauto | intuition (congruence || lia)].

(** ** The builtins on sample payloads *)

Example py_int_samples :
  py_int "2" = Some 2 /\ py_int "-2" = Some (-2) /\ py_int " +1_000 " = Some 1000
  /\ py_int "" = None /\ py_int "1.5" = None /\ py_int "- 1" = None
  /\ py_int "1__0" = None /\ py_int "on" = None.
Proof. repeat split; reflexivity. Qed.

Example py_float_samples :
  py_float "21.5" = Some (FNum 215 (-1)) /\ py_float "-.5e1" = Some (FNum (-5) 0)
  /\ py_float "22" = Some (FNum 22 0) /\ py_float "Inf" = Some (FInf false)
  /\ py_float "nan" = Some FNan /\ py_float "." = None /\ py_float "1e" = None.
Proof. repeat split; reflexivity. Qed.

Example log_topics :
  contains "/notice/log" serverLogNotice = true
  /\ contains "/notice/log" arduinoLogNotice = true
  /\ contains "/notice/log" userPowerCommand = false.
Proof. repeat split; reflexivity. Qed.

(** ** Composition of bodies *)

Lemma preserves_bind {A B : Type} (P : state -> Prop) (m : M A) (f : A -> M B) :
  preserves P m -> (forall a, preserves P (f a)) -> preserves P (bind m f).
Proof.
  intros Hm Hf s Hs. specialize (Hm s Hs).
  unfold bind, state_after, no_raise, signal_of in *.
  destruct (m s) as [[[a| |e] s1] o1]; simpl in *.
  - destruct Hm as [Hm _]. specialize (Hf a s1 Hm).
    unfold state_after, no_raise, signal_of in Hf.
    destruct (f a s1) as [[r s2] o2]; simpl in *. exact Hf.
  - exact Hm.
  - exact Hm.
Qed.

Lemma preserves_when (P : state -> Prop) (b : bool) (m : M unit) :
  (b = true -> preserves P m) -> preserves P (when b m).
Proof.
  intros Hm. destruct b; simpl.
  - apply Hm. reflexivity.
  - intros s Hs. split; [exact Hs | exact I].
Qed.

Lemma preserves_effect (P : state -> Prop) (e : effect) : preserves P (emit e).
Proof. intros s Hs. split; [exact Hs | exact I]. Qed.

Lemma write_log_preserves (P : state -> Prop) (topic payload : string) :
  preserves P (write_log topic payload).
Proof. intros s Hs. split; [exact Hs | exact I]. Qed.

(** [on_message] preserves what its handlers preserve; the handlers of the
    mode command and of the occupancy override only matter on their topic. *)
Lemma on_message_preserves (P : state -> Prop) (topic payload : string) :
  preserves P (handle_arduinoTempNotice payload) ->
  preserves P (handle_arduinoOccChangeNotice payload) ->
  preserves P handle_userRefreshRequest ->
  preserves P (handle_userPowerCommand payload) ->
  (topic = userModeCommand -> preserves P (handle_userModeCommand payload)) ->
  preserves P (handle_userTempCommand payload) ->
  (topic = userUpdateOccCommand ->
   preserves P (handle_userUpdateOccCommand payload)) ->
  preserves P (on_message topic payload).
Proof.
  intros H1 H2 H3 H4 H5 H6 H7. unfold on_message.
  repeat (apply preserves_bind; [apply preserves_when; intros Ht | intros _]);
    try assumption.
  - apply H5. apply String.eqb_eq. exact Ht.
  - apply H7. apply String.eqb_eq. exact Ht.
  - apply preserves_when. intros _. apply write_log_preserves.
Qed.

(** ** The handlers keep the invariants *)

Lemma temp_notice_inv (l : level) (payload : string) :
  preserves (invariant l) (handle_arduinoTempNotice payload).
Proof.
  intros s Hs. break_state s. run_body.
  destruct (py_float payload); run_body; destruct l; close_inv.
Qed.

Lemma occ_change_inv (l : level) (payload : string) :
  preserves (invariant l) (handle_arduinoOccChangeNotice payload).
Proof.
  intros s Hs. break_state s. open_inv.
  destruct Hs as (([-> | ->] & Hot & Hnn & Hdb) & Hl); run_body;
    [| destruct l; close_inv].
  destruct (py_int payload) as [d|]; run_body; [| destruct l; close_inv].
  destruct occ as [|n]; [discriminate (Hot eq_refl)|].
  run_body. destruct (Z.ltb_spec (n + d) 0); run_body; destruct l; close_inv.
Qed.

Lemma refresh_inv (l : level) : preserves (invariant l) handle_userRefreshRequest.
Proof.
  intros s Hs. break_state s. open_inv.
  destruct Hs as (([-> | ->] & Hot & Hnn & Hdb) & Hl); run_body;
    [| destruct l; close_inv].
  destruct ts; run_body; [| destruct l; close_inv].
  destruct tt_ as [d|]; run_body; [destruct l; close_inv |].
  exfalso. destruct (Hdb eq_refl) as [_ H]. apply H. reflexivity.
Qed.

Lemma power_command_inv (l : level) (payload : string) :
  preserves (invariant l) (handle_userPowerCommand payload).
Proof.
  intros s Hs. break_state s. open_inv.
  destruct Hs as ((Hpk & Hot & Hnn & Hdb) & Hl). run_body.
  destruct (str_in payload validPowerStates) eqn:Hin; run_body;
    [| destruct l; close_inv].
  unfold str_in, validPowerStates in Hin. cbn [existsb] in Hin.
  destruct (String.eqb_spec payload "on") as [-> | Hne].
  - destruct Hpk as [-> | ->]; run_body.
    + destruct l; close_inv.
    + destruct occ; run_body; destruct l; close_inv.
  - destruct (String.eqb_spec payload "off") as [-> | Hne'];
      [| discriminate Hin].
    destruct Hpk as [-> | ->]; run_body; destruct l; close_inv.
Qed.

Lemma mode_command_inv (l : level) (payload : string) :
  l <> Strict -> preserves (invariant l) (handle_userModeCommand payload).
Proof.
  intros Hl s Hs. break_state s. run_body.
  destruct (str_in payload validModes); run_body; destruct l; close_inv.
Qed.

Lemma temp_command_inv (l : level) (payload : string) :
  preserves (invariant l) (handle_userTempCommand payload).
Proof.
  intros s Hs. break_state s. run_body.
  destruct (py_int payload) as [t|]; run_body; [| destruct l; close_inv].
  destruct (int_in t validTemps); run_body; destruct l; close_inv.
Qed.

Lemma occ_update_inv (payload : string) :
  preserves (invariant Basic) (handle_userUpdateOccCommand payload).
Proof.
  intros s Hs. break_state s. run_body.
  destruct (py_int payload) as [n|]; run_body; [| close_inv].
  destruct (Z.geb_spec n 0); run_body; close_inv.
Qed.

Lemma subscribed_not_override (topic : string) :
  In topic subscribeTopics -> topic <> userUpdateOccCommand.
Proof.
  intros Hin ->. simpl in Hin.
  repeat (destruct Hin as [Hin | Hin]; [discriminate Hin |]). exact Hin.
Qed.

(** Every message keeps the basic invariant and raises nothing. *)
Lemma on_message_basic (topic payload : string) :
  preserves (invariant Basic) (on_message topic payload).
Proof.
  apply on_message_preserves;
    auto using temp_notice_inv, occ_change_inv, refresh_inv, power_command_inv,
      temp_command_inv, occ_update_inv.
  intros _. apply mode_command_inv. discriminate.
Qed.

(** So does every message on a subscribed topic for [Tracking]. *)
Lemma on_message_tracking (topic payload : string) :
  In topic subscribeTopics ->
  preserves (invariant Tracking) (on_message topic payload).
Proof.
  intros Hin.
  apply on_message_preserves;
    auto using temp_notice_inv, occ_change_inv, refresh_inv, power_command_inv,
      temp_command_inv.
  - intros _. apply mode_command_inv. discriminate.
  - intros ->. destruct (subscribed_not_override _ Hin eq_refl).
Qed.

(** A subscribed message other than a mode command accepted while the
    power is off keeps the strict invariant. *)
Lemma on_message_strict (topic payload : string) (s : state) :
  In topic subscribeTopics ->
  mode_command_while_off s (Message topic payload) = false ->
  invariant Strict s ->
  invariant Strict (state_after (on_message topic payload s))
  /\ no_raise (on_message topic payload s).
Proof.
  intros Hin Hcmd Hs.
  destruct (String.eqb_spec topic userModeCommand) as [-> | Hne].
  - break_state s. unfold mode_command_while_off in Hcmd.
    revert Hcmd. open_inv.
    destruct Hs as (([-> | ->] & Hot & Hnn & Hdb) & Hu & Hm); run_body;
      destruct (str_in payload validModes); run_body; intros Hcmd;
      try discriminate Hcmd; close_inv.
  - revert s Hcmd Hs. intros s _. revert s.
    apply on_message_preserves;
      auto using temp_notice_inv, occ_change_inv, refresh_inv,
        power_command_inv, temp_command_inv.
    + intros ->. destruct (Hne eq_refl).
    + intros ->. destruct (subscribed_not_override _ Hin eq_refl).
Qed.

(** ** The blocks of the main loop keep the invariants *)

Lemma poll_block_inv (l : level) (env : tick_env) :
  preserves (invariant l) (poll_block env).
Proof.
  intros s Hs. break_state s. destruct env as [tp sr ta te]. run_body.
  destruct av as [|[|]], sr; run_body; destruct l; close_inv.
Qed.

Lemma quiet_rule_inv (l : level) : preserves (invariant l) quiet_rule.
Proof.
  intros s Hs. break_state s. run_body.
  destruct occ as [|n]; run_body; [destruct l; close_inv |].
  destruct (n >? 0); run_body; [| destruct l; close_inv].
  destruct (mode =? "quiet")%string; run_body; destruct l; close_inv.
Qed.

Lemma arm_check_inv (l : level) (env : tick_env) :
  preserves (invariant l) (arm_check env).
Proof.
  intros s Hs. break_state s. destruct env as [tp sr ta te]. run_body.
  destruct (power =? "on")%string; run_body; [| destruct l; close_inv].
  destruct occ as [|n]; run_body; [destruct l; close_inv |].
  destruct (n =? 0); run_body; [| destruct l; close_inv].
  destruct ts; run_body; destruct l; close_inv.
Qed.

Lemma reoccupy_cancel_inv (l : level) : preserves (invariant l) reoccupy_cancel.
Proof.
  intros s Hs. break_state s. run_body.
  destruct occ as [|n]; run_body; [destruct l; close_inv |].
  destruct (n >? 0); run_body; [| destruct l; close_inv].
  destruct ts; run_body; destruct l; close_inv.
Qed.

Lemma expiry_check_inv (l : level) (env : tick_env) :
  l <> Strict -> preserves (invariant l) (expiry_check env).
Proof.
  intros Hl s Hs. break_state s. destruct env as [tp sr ta te]. run_body.
  destruct ts; run_body; [| destruct l; close_inv].
  destruct tet as [d|]; run_body.
  - destruct (te >? d); run_body; destruct l; close_inv.
  - exfalso. open_inv. destruct Hs as ((_ & _ & _ & Hdb) & _).
    destruct (Hdb eq_refl) as [H _]. apply H. reflexivity.
Qed.

Lemma off_cancel_inv (l : level) : preserves (invariant l) off_cancel.
Proof.
  intros s Hs. break_state s. run_body.
  destruct (power =? "off")%string; run_body; [| destruct l; close_inv].
  destruct ts; run_body; destruct l; close_inv.
Qed.

Lemma main_loop_inv (l : level) (env : tick_env) :
  l <> Strict -> preserves (invariant l) (main_loop_body env).
Proof.
  intros Hl. unfold main_loop_body, evaluate_rules.
  apply preserves_bind;
    [apply preserves_when; intros _; apply poll_block_inv | intros _].
  apply preserves_bind; [apply quiet_rule_inv | intros _].
  apply preserves_bind; [apply arm_check_inv | intros _].
  apply preserves_bind; [apply reoccupy_cancel_inv | intros _].
  apply preserves_bind; [apply expiry_check_inv; exact Hl | intros _].
  apply preserves_bind; [apply off_cancel_inv | intros _].
  apply preserves_effect.
Qed.

(** An iteration in which the timer does not fire keeps a powered-off
    system without a mode. *)
Lemma main_loop_off_unset (env : tick_env) (s : state) :
  invariant Strict s ->
  timer_fires s (Iteration env) = false ->
  off_unset (state_after (main_loop_body env s)).
Proof.
  intros Hs Hf. break_state s. destruct env as [tp sr ta te].
  unfold timer_fires in Hf. open_inv.
  destruct Hs as (([-> | ->] & Hot & Hnn & Hdb) & Hu & Hm).
  - destruct occ as [|n]; [discriminate (Hot eq_refl)|].
    revert Hf. run_body.
    repeat (case_scrutinee; run_body); intros Hf; try discriminate Hf;
      close_inv.
  - specialize (Hu eq_refl). specialize (Hm eq_refl). subst occ mode.
    clear Hf. run_body.
    repeat (case_scrutinee; run_body); close_inv.
Qed.

(** ** Steps and runs *)

Lemma step_basic (s : state) (e : event) :
  invariant Basic s -> invariant Basic (step s e) /\ no_raise (exec e s).
Proof.
  destruct e as [topic payload | env]; unfold step, exec.
  - apply on_message_basic.
  - apply main_loop_inv. discriminate.
Qed.

Lemma step_tracking (s : state) (e : event) :
  subscribed s e -> invariant Tracking s -> invariant Tracking (step s e).
Proof.
  destruct e as [topic payload | env]; unfold step, exec, subscribed;
    intros Hsub Hs.
  - apply (on_message_tracking topic payload Hsub s Hs).
  - refine (proj1 (main_loop_inv Tracking env _ s Hs)). discriminate.
Qed.

Lemma invariant_weaken (s : state) :
  invariant Strict s -> invariant Tracking s.
Proof. unfold invariant. tauto. Qed.

Lemma step_strict (s : state) (e : event) :
  subscribed_plain s e -> invariant Strict s -> invariant Strict (step s e).
Proof.
  intros (Hsub & Hcmd & Hfire) Hs.
  destruct e as [topic payload | env]; unfold step, exec.
  - apply (on_message_strict topic payload s Hsub Hcmd Hs).
  - pose proof (step_tracking s (Iteration env) Hsub (invariant_weaken s Hs))
      as [Hwf Hu].
    pose proof (main_loop_off_unset env s Hs Hfire) as Hm.
    unfold step, exec in Hwf, Hu. unfold invariant. tauto.
Qed.

Lemma initial_invariant (l : level) : invariant l initial_state.
Proof.
  destruct l; unfold initial_state; close_inv.
Qed.

Lemma reachable_basic (allowed : state -> event -> Prop) (s : state) :
  reachable_by allowed s -> invariant Basic s.
Proof.
  induction 1 as [| s e _ IH _].
  - apply initial_invariant.
  - apply step_basic. exact IH.
Qed.

Lemma reachable_tracking (s : state) :
  reachable s -> invariant Tracking s.
Proof.
  induction 1 as [| s e _ IH He].
  - apply initial_invariant.
  - apply step_tracking; assumption.
Qed.

Lemma reachable_strict (s : state) :
  reachable_by subscribed_plain s -> invariant Strict s.
Proof.
  induction 1 as [| s e _ IH He].
  - apply initial_invariant.
  - apply step_strict; assumption.
Qed.

Lemma reachable_run (allowed : state -> event -> Prop) (es : list event)
  (s : state) :
  reachable_by allowed s -> admitted allowed es s ->
  reachable_by allowed (run_events es s).
Proof.
  revert s. induction es as [| e rest IH]; intros s Hs Hes; simpl.
  - exact Hs.
  - destruct Hes as [He Hrest]. apply IH; [| exact Hrest].
    apply reach_step; assumption.
Qed.

Lemma reachable_by_weaken (allowed allowed' : state -> event -> Prop)
  (s : state) :
  (forall s e, allowed s e -> allowed' s e) ->
  reachable_by allowed s -> reachable_by allowed' s.
Proof.
  intros Himp. induction 1 as [| s e _ IH He].
  - apply reach_init.
  - apply reach_step; [exact IH | apply Himp; exact He].
Qed.

(** ** Power off, mode and occupancy *)

(** C1, as the specification states it, fails: a mode command "quiet"
    delivered to the freshly started server, whose power is "off", leaves
    the power "off" and the mode "quiet". *)
Lemma power_off_invariant_fails :
  ~ (forall s, reachable s -> systemPowerState s = "off" ->
               systemMode s = "N/A" /\ roomOccupancy s = OccNA).
Proof.
  intros Hclaim.
  assert (Hr : reachable (step initial_state (Message userModeCommand "quiet"))).
  { apply reach_step; [apply reach_init |]. simpl. tauto. }
  destruct (Hclaim _ Hr eq_refl) as [Hmode _]. discriminate Hmode.
Qed.

(** C1, amended.  In every state reached from the initial one by messages
    on the subscribed topics and iterations of the main loop, a power of
    "off" comes with an occupancy of "N/A"; it comes with a mode of "N/A"
    too when the run had no mode command accepted while the power was off and
    no iteration in which the expired timer switched the system off. *)
Theorem power_off_invariant (s : state) :
  reachable s ->
  systemPowerState s = "off" ->
  roomOccupancy s = OccNA
  /\ (reachable_by subscribed_plain s -> systemMode s = "N/A").
Proof.
  intros Hr Hoff. split.
  - destruct (reachable_tracking s Hr) as [_ Hu]. apply Hu. exact Hoff.
  - intros Hp. destruct (reachable_strict s Hp) as (_ & _ & Hm).
    apply Hm. exact Hoff.
Qed.

Lemma power_off_invariant_witness :
  let s := run_events
             [Message userPowerCommand "on"; Message userPowerCommand "off"]
             initial_state in
  systemPowerState s = "off"
  /\ roomOccupancy s = OccNA /\ systemMode s = "N/A".
Proof.
  intros s.
  assert (Hp : reachable_by subscribed_plain s).
  { apply reachable_run; [apply reach_init |].
    simpl. unfold subscribed_plain. simpl. repeat split; auto 10. }
  assert (Hr : reachable s).
  { apply (reachable_by_weaken subscribed_plain); [| exact Hp].
    intros s' e He. apply He. }
  destruct (power_off_invariant s Hr eq_refl) as [Hocc Hmode].
  split; [reflexivity |]. split; [exact Hocc | exact (Hmode Hp)].
Defined.

(** ** The vacancy timer *)

(** Once armed with the room empty, an iteration that is not cut short and
    whose clock is past the deadline switches the power off, clears the
    occupancy and the timer, sends the power command "off", and leaves
    [systemMode] as it was. *)
Lemma expiry_outcome (s : state) (env : tick_env) (d : Z) :
  systemPowerState s = "on" ->
  roomOccupancy s = OccNum 0 ->
  timeoutState s = true ->
  timeoutEndTimestamp s = Some d ->
  cut_short env = false ->
  d < now_expiry env ->
  let r := main_loop_body env s in
  systemPowerState (state_after r) = "off"
  /\ roomOccupancy (state_after r) = OccNA
  /\ timeoutState (state_after r) = false
  /\ systemMode (state_after r) = systemMode s
  /\ commands (effects_of r) = [(serverPowerCommand, VStr "off")].
Proof.
  break_state s. destruct env as [tp sr ta te]. unfold cut_short.
  cbn [systemPowerState roomOccupancy timeoutState timeoutEndTimestamp
       systemMode now_expiry now_poll sensor].
  intros -> -> -> -> Hcut Hlt.
  assert (Hgt : (te >? d) = true) by (apply Z.gtb_lt; exact Hlt).
  run_body. destruct (poll_due tp); run_body.
  - destruct sr as [t | msg]; [| discriminate Hcut].
    destruct av as [|[|]]; run_body; rewrite Hgt; run_body;
      repeat split; reflexivity.
  - rewrite Hgt. run_body. repeat split; reflexivity.
Qed.

(** C2.  Scenario C on the code: with the power on and two people in, the
    delta -2 makes the occupancy 0; the iteration at second 2 arms the timer
    with the deadline 300 seconds later; the iteration at second 303
    switches the power off, sets the occupancy to "N/A" and clears the timer,
    but leaves the mode "quiet" instead of "N/A". *)
Theorem vacancy_timeout_keeps_mode :
  systemPowerState occupied_state = "on"
  /\ roomOccupancy occupied_state = OccNum 2
  /\ roomOccupancy vacated_state = OccNum 0
  /\ timeoutState vacated_state = false
  /\ timeoutState armed_state = true
  /\ timeoutEndTimestamp armed_state
     = Some (2000000 + timeoutMinutes * 60 * microseconds)
  /\ let s := step armed_state (Iteration (tick_at 303000000)) in
     systemPowerState s = "off"
     /\ roomOccupancy s = OccNA
     /\ timeoutState s = false
     /\ systemMode s = "quiet".
Proof.
  repeat split; reflexivity.
Qed.
(** ** The power command (lines 162-185) *)

(** C3. A power-on command received while the power is off sends, in this
    order, the power command, the log line, a sleep of half a second, the
    mode command "super", another sleep of half a second and the temperature
    command with the current target; the commands to the actuator are these
    three, each at least 500 ms of sleep after the one before; afterwards
    the power is "on", the mode "super", the occupancy 0 if it was "N/A" and
    unchanged if it was a number, and no other global has changed. *)
Theorem power_on_from_off (s : state) :
  systemPowerState s = "off" ->
  let r := on_message userPowerCommand "on" s in
  signal_of r = Exit
  /\ effects_of r =
       [Publish serverPowerCommand (VStr "on");
        Publish serverLogNotice (VLog (LogPowerForwarded "on"));
        Sleep 500;
        Publish serverModeCommand (VStr "super");
        Sleep 500;
        Publish serverTempCommand (VInt (systemTargetTemp s))]
  /\ commands (effects_of r) =
       [(serverPowerCommand, VStr "on");
        (serverModeCommand, VStr "super");
        (serverTempCommand, VInt (systemTargetTemp s))]
  /\ spaced 500 None (effects_of r) = true
  /\ state_after r =
       set_systemPowerState "on"
         (set_systemMode "super"
            (set_roomOccupancy
               (if is_number (roomOccupancy s) then roomOccupancy s
                else OccNum 0) s)).
Proof.
  destruct s as [av at_ rt occ prior mode target power ts tet tt_].
  simpl. intros ->.
  destruct occ; repeat split; reflexivity.
Qed.

Lemma power_on_from_off_witness :
  systemPowerState initial_state = "off"
  /\ roomOccupancy (state_after (on_message userPowerCommand "on" initial_state))
     = OccNum 0.
Proof.
  split; [reflexivity |].
  destruct (power_on_from_off initial_state eq_refl) as (_ & _ & _ & _ & H).
  rewrite H. reflexivity.
Defined.

(** The handler of a power command "on" leaves globals whose power is "on"
    as they are, and only forwards the command. *)
Lemma power_on_when_on (s : state) :
  systemPowerState s = "on" ->
  on_message userPowerCommand "on" s =
    (Exit, s,
     [Publish serverPowerCommand (VStr "on");
      Publish serverLogNotice (VLog (LogPowerForwarded "on"))]).
Proof.
  destruct s as [av at_ rt occ prior mode target power ts tet tt_].
  simpl. intros ->. reflexivity.
Qed.

(** C4. Of two power commands "on" in a row, starting with the power off,
    the first sends the mode command "super" and the temperature command and
    sets the mode to "super"; the second sends the power command and its log
    line only, so no mode or temperature command, and leaves every global as
    the first one left it. *)
Theorem repeated_power_on (s : state) :
  systemPowerState s = "off" ->
  let r1 := on_message userPowerCommand "on" s in
  let r2 := on_message userPowerCommand "on" (state_after r1) in
  commands (effects_of r1) =
    [(serverPowerCommand, VStr "on");
     (serverModeCommand, VStr "super");
     (serverTempCommand, VInt (systemTargetTemp s))]
  /\ systemMode (state_after r1) = "super"
  /\ effects_of r2 =
       [Publish serverPowerCommand (VStr "on");
        Publish serverLogNotice (VLog (LogPowerForwarded "on"))]
  /\ commands (effects_of r2) = [(serverPowerCommand, VStr "on")]
  /\ state_after r2 = state_after r1.
Proof.
  intros Hoff r1 r2.
  assert (Hon : systemPowerState (state_after r1) = "on").
  { subst r1. destruct s as [av at_ rt occ prior mode target power ts tet tt_].
    simpl in Hoff. subst power. destruct occ; reflexivity. }
  subst r2. rewrite (power_on_when_on _ Hon).
  subst r1. destruct s as [av at_ rt occ prior mode target power ts tet tt_].
  simpl in Hoff. subst power. destruct occ; repeat split; reflexivity.
Qed.

Lemma repeated_power_on_witness :
  systemPowerState initial_state = "off"
  /\ state_after
       (on_message userPowerCommand "on"
          (state_after (on_message userPowerCommand "on" initial_state)))
     = state_after (on_message userPowerCommand "on" initial_state).
Proof.
  split; [reflexivity |].
  exact (proj2 (proj2 (proj2 (proj2
           (repeated_power_on initial_state eq_refl))))).
Defined.

(** ** The mode command (lines 187-193) *)

(** C5, as the specification states it, fails: from the initial globals,
    whose power is "off", the mode command "quiet" is forwarded to the
    actuator and stored. *)
Lemma mode_command_accepted_while_off :
  systemPowerState initial_state = "off"
  /\ str_in "quiet" validModes = true
  /\ commands (effects_of (on_message userModeCommand "quiet" initial_state))
     = [(serverModeCommand, VStr "quiet")]
  /\ systemMode (state_after (on_message userModeCommand "quiet" initial_state))
     = "quiet"
  /\ state_after (on_message userModeCommand "quiet" initial_state)
     <> initial_state.
Proof.
  repeat split; try reflexivity. discriminate.
Qed.

(** C5, amended.  A mode command is rejected exactly when its payload is not
    one of "quiet", "super", "cooling": then no global changes, the only
    effect is the log line naming the payload, and no command goes to the
    actuator.  Any other mode command is accepted whatever the power: it is
    forwarded to the actuator, logged and stored in [systemMode].  Neither
    case raises. *)
Theorem mode_command_outcome (s : state) (payload : string) :
  let r := on_message userModeCommand payload s in
  signal_of r = Next tt
  /\ state_after r =
       (if str_in payload validModes then set_systemMode payload s else s)
  /\ effects_of r =
       (if str_in payload validModes
        then [Publish serverModeCommand (VStr payload);
              Publish serverLogNotice (VLog (LogModeForwarded payload))]
        else [Publish serverLogNotice (VLog (LogInvalidMode payload))])
  /\ commands (effects_of r) =
       (if str_in payload validModes
        then [(serverModeCommand, VStr payload)]
        else []).
Proof.
  destruct s as [av at_ rt occ prior mode target power ts tet tt_].
  run_body.
  destruct (str_in payload validModes); repeat split; reflexivity.
Qed.

(** ** Occupancy *)

(** The delta handler on a number: the sum, floored at 0. *)
Lemma occ_change_result (s : state) (payload : string) (d n : Z) :
  systemPowerState s <> "off" ->
  py_int payload = Some d ->
  roomOccupancy s = OccNum n ->
  on_message arduinoOccChangeNotice payload s =
    (Next tt,
     set_roomOccupancy (OccNum (Z.max 0 (n + d)))
       (set_priorRoomOccupancy (Some (OccNum n)) s),
     [Publish serverLogNotice
        (VLog (LogOccChange (Some (OccNum n)) (OccNum (Z.max 0 (n + d)))))]).
Proof.
  break_state s.
  cbn [systemPowerState roomOccupancy]. intros Hon Hd ->.
  run_body. destruct (String.eqb_spec power "off") as [-> | _];
    [destruct (Hon eq_refl) |].
  run_body. rewrite Hd. run_body.
  destruct (Z.ltb_spec (n + d) 0); run_body.
  - replace (Z.max 0 (n + d)) with 0 by lia. reflexivity.
  - replace (Z.max 0 (n + d)) with (n + d) by lia. reflexivity.
Qed.

(** The override handler on a negative figure: a log line, nothing else. *)
Lemma occ_update_negative (s : state) (payload : string) (n : Z) :
  py_int payload = Some n ->
  n < 0 ->
  on_message userUpdateOccCommand payload s =
    (Next tt, s,
     [Print "Update occupancy command received";
      Publish serverLogNotice (VLog (LogInvalidOccFigure n))]).
Proof.
  break_state s. intros Hn Hneg. run_body. rewrite Hn. run_body.
  destruct (Z.geb_spec n 0); [lia |]. reflexivity.
Qed.

(** C6.  Along every run of messages, on any topic, and iterations, an
    occupancy that is a number is not negative.  A delta received while the
    power is not "off" replaces the occupancy [n] by [max 0 (n + delta)]; an
    override with a negative figure changes no global. *)
Theorem occupancy_never_negative :
  (forall s n,
      reachable_by any_event s -> roomOccupancy s = OccNum n -> 0 <= n)
  /\ (forall s payload delta n,
         systemPowerState s <> "off" ->
         py_int payload = Some delta ->
         roomOccupancy s = OccNum n ->
         roomOccupancy (step s (Message arduinoOccChangeNotice payload))
         = OccNum (Z.max 0 (n + delta)))
  /\ (forall s payload n,
         py_int payload = Some n -> n < 0 ->
         step s (Message userUpdateOccCommand payload) = s).
Proof.
  split; [| split].
  - intros s n Hr. destruct (reachable_basic _ s Hr) as ((_ & _ & Hnn & _) & _).
    apply Hnn.
  - intros s payload delta n Hon Hd Hocc. unfold step, exec.
    rewrite (occ_change_result s payload delta n Hon Hd Hocc). reflexivity.
  - intros s payload n Hn Hneg. unfold step, exec.
    rewrite (occ_update_negative s payload n Hn Hneg). reflexivity.
Qed.

Lemma occupancy_never_negative_witness :
  (reachable_by any_event vacated_state
   /\ roomOccupancy vacated_state = OccNum 0 /\ 0 <= 0)
  /\ (systemPowerState vacated_state <> "off"
      /\ py_int "-3" = Some (-3)
      /\ roomOccupancy (step vacated_state (Message arduinoOccChangeNotice "-3"))
         = OccNum 0)
  /\ (py_int "-1" = Some (-1)
      /\ step occupied_state (Message userUpdateOccCommand "-1")
         = occupied_state).
Proof.
  destruct occupancy_never_negative as (Hinv & Hdelta & Hover).
  assert (Hr : reachable_by any_event vacated_state).
  { apply reach_step; [| exact I].
    apply reachable_run; [apply reach_init |]. simpl. unfold any_event. tauto. }
  split; [| split].
  - split; [exact Hr |]. split; [reflexivity |].
    apply (Hinv vacated_state 0 Hr). reflexivity.
  - split; [discriminate |]. split; [reflexivity |].
    apply (Hdelta vacated_state "-3" (-3) 0);
      [discriminate | reflexivity | reflexivity].
  - split; [reflexivity |].
    apply (Hover occupied_state "-1" (-1)); [reflexivity | lia].
Defined.

(** ** Reoccupation while the timer runs *)

(** With the power on and somebody in the room, an iteration sends no power
    command "off" and keeps the power and the occupancy; it leaves the timer
    idle if it is not cut short, and as it was if it is. *)
Lemma iteration_while_occupied (n : Z) (env : tick_env) (s : state) :
  occupied_on n s ->
  let r := main_loop_body env s in
  occupied_on n (state_after r)
  /\ existsb is_power_off (effects_of r) = false
  /\ timeoutState (state_after r)
     = (if cut_short env then timeoutState s else false).
Proof.
  break_state s. destruct env as [tp sr ta te]. unfold occupied_on, cut_short.
  cbn [systemPowerState roomOccupancy timeoutState now_poll sensor].
  intros (-> & -> & Hpos).
  assert (Hgt : (n >? 0) = true) by (apply Z.gtb_lt; exact Hpos).
  assert (Hne : (n =? 0) = false) by (apply Z.eqb_neq; lia).
  run_body.
  destruct (poll_due tp), sr, av as [|[|]], (mode =? "quiet")%string eqn:Hq, ts;
    repeat (progress (run_body; rewrite ?Hgt, ?Hne, ?Hq));
    (split; [repeat split; (reflexivity || assumption) | split; reflexivity]).
Qed.

Lemma iterations_while_occupied (n : Z) (envs : list tick_env) (s : state) :
  occupied_on n s ->
  occupied_on n (run_events (map Iteration envs) s)
  /\ existsb is_power_off (run_effects (map Iteration envs) s) = false.
Proof.
  revert s. induction envs as [| env rest IH]; intros s Hs; simpl.
  - split; [exact Hs | reflexivity].
  - destruct (iteration_while_occupied n env s Hs) as (Hs' & Hoff & _).
    destruct (IH _ Hs') as [Hend Hrest].
    split; [exact Hend |].
    rewrite existsb_app. unfold step, exec. rewrite Hoff, Hrest. reflexivity.
Qed.

(** C7, as the specification states it, fails: with the timer armed at
    second 2 and one person back in, the next iteration, at second 60, polls
    the sensor; the read fails, and the timer is still armed after it. *)
Lemma timer_still_armed_after_failed_read :
  timeoutState armed_state = true
  /\ timeoutEndTimestamp armed_state = Some 302000000
  /\ roomOccupancy reoccupied_state = OccNum 1
  /\ timeoutState reoccupied_state = true
  /\ now_expiry (failing_tick_at 60000000) < 302000000
  /\ timeoutState (step reoccupied_state (Iteration (failing_tick_at 60000000)))
     = true.
Proof.
  repeat split; reflexivity.
Qed.

(** With the power on and somebody in the room, iterations that are all
    cut short leave the timer as it was. *)
Lemma cut_short_iterations_keep_timer (n : Z) (envs : list tick_env)
  (s : state) :
  occupied_on n s ->
  forallb cut_short envs = true ->
  timeoutState (run_events (map Iteration envs) s) = timeoutState s.
Proof.
  revert s. induction envs as [| env rest IH]; intros s Hs Hall.
  - reflexivity.
  - cbn [forallb] in Hall. apply andb_true_iff in Hall.
    destruct Hall as [Hcut Hrest].
    destruct (iteration_while_occupied n env s Hs) as (Hs' & _ & Hts).
    rewrite Hcut in Hts.
    transitivity (timeoutState (step s (Iteration env))); [| exact Hts].
    apply (IH (step s (Iteration env)) Hs' Hrest).
Qed.

(** C7, amended.  With the timer armed and the power on, a delta that makes
    the occupancy positive leaves the timer armed; from then on, over any
    iterations of the main loop, whatever their clocks, no power command
    "off" is sent and the power stays "on"; an iteration that is cut short
    by a failed sensor read leaves the timer as it was, so that the timer is
    still armed as long as every iteration was cut short; and every
    iteration that is not cut short leaves the timer idle. *)
Theorem reoccupation_cancels_timer (s : state) (payload : string) (n delta : Z) :
  systemPowerState s = "on" ->
  timeoutState s = true ->
  roomOccupancy s = OccNum n ->
  py_int payload = Some delta ->
  0 < n + delta ->
  let s1 := step s (Message arduinoOccChangeNotice payload) in
  timeoutState s1 = true
  /\ roomOccupancy s1 = OccNum (n + delta)
  /\ forall envs : list tick_env,
       let s2 := run_events (map Iteration envs) s1 in
       systemPowerState s2 = "on"
       /\ existsb is_power_off (run_effects (map Iteration envs) s1) = false
       /\ (forallb cut_short envs = true -> timeoutState s2 = true)
       /\ forall env : tick_env,
            (cut_short env = false ->
             timeoutState (step s2 (Iteration env)) = false
             /\ systemPowerState (step s2 (Iteration env)) = "on")
            /\ (cut_short env = true ->
                timeoutState (step s2 (Iteration env)) = timeoutState s2
                /\ systemPowerState (step s2 (Iteration env)) = "on").
Proof.
  intros Hon Hts Hocc Hd Hpos s1.
  assert (Hne : systemPowerState s <> "off") by (rewrite Hon; discriminate).
  assert (Hs1 : s1 = set_roomOccupancy (OccNum (n + delta))
                       (set_priorRoomOccupancy (Some (OccNum n)) s)).
  { subst s1. unfold step, exec.
    rewrite (occ_change_result s payload delta n Hne Hd Hocc).
    replace (Z.max 0 (n + delta)) with (n + delta) by lia. reflexivity. }
  assert (Hocc1 : occupied_on (n + delta) s1).
  { rewrite Hs1. break_state s. cbn in Hon. subst power.
    repeat split. exact Hpos. }
  assert (Hts1 : timeoutState s1 = true).
  { rewrite Hs1. break_state s. exact Hts. }
  split; [exact Hts1 |].
  split; [apply Hocc1 |].
  intros envs s2.
  destruct (iterations_while_occupied (n + delta) envs s1 Hocc1) as [H2 Hoff].
  split; [apply H2 |]. split; [exact Hoff |]. split.
  - intros Hall. subst s2.
    rewrite (cut_short_iterations_keep_timer (n + delta) envs s1 Hocc1 Hall).
    exact Hts1.
  - intros env.
    destruct (iteration_while_occupied (n + delta) env s2 H2) as (H3 & _ & Hidle).
    split; intros Hcut; rewrite Hcut in Hidle;
      (split; [exact Hidle | apply H3]).
Qed.

Lemma reoccupation_cancels_timer_witness :
  systemPowerState armed_state = "on"
  /\ timeoutState armed_state = true
  /\ roomOccupancy armed_state = OccNum 0
  /\ py_int "1" = Some 1
  /\ 0 < 0 + 1
  /\ forallb cut_short [failing_tick_at 60000000] = true
  /\ timeoutState
       (run_events (map Iteration [failing_tick_at 60000000]) reoccupied_state)
     = true
  /\ cut_short (tick_at 400000000) = false
  /\ timeoutState
       (step (run_events (map Iteration [failing_tick_at 60000000])
                reoccupied_state)
          (Iteration (tick_at 400000000)))
     = false.
Proof.
  assert (Hpos : 0 < 0 + 1) by lia.
  destruct (reoccupation_cancels_timer armed_state "1" 0 1
              eq_refl eq_refl eq_refl eq_refl Hpos) as (_ & _ & H).
  destruct (H [failing_tick_at 60000000]) as (_ & _ & Harmed & Hnext).
  do 4 (split; [reflexivity |]). split; [exact Hpos |].
  split; [reflexivity |]. split; [exact (Harmed eq_refl) |].
  split; [reflexivity |].
  exact (proj1 (proj1 (Hnext (tick_at 400000000)) eq_refl)).
Defined.

(** ** A failed sensor read *)

Lemma bind_next {A B : Type} (m : M A) (f : A -> M B) (s : state) (a : A) :
  signal_of (m s) = Next a ->
  bind m f s =
    (signal_of (f a (state_after (m s))),
     state_after (f a (state_after (m s))),
     effects_of (m s) ++ effects_of (f a (state_after (m s)))).
Proof.
  unfold bind, signal_of, state_after, effects_of.
  destruct (m s) as [[sig s1] o1]. simpl. intros ->.
  destruct (f a s1) as [[r s2] o2]. reflexivity.
Qed.

(** The poll of an iteration that is not cut short hands over to the
    rules. *)
Lemma poll_passes (env : tick_env) (s : state) :
  cut_short env = false ->
  signal_of (when (poll_due (now_poll env)) (poll_block env) s) = Next tt.
Proof.
  break_state s. destruct env as [tp sr ta te]. unfold cut_short.
  cbn [now_poll sensor]. intros Hcut.
  destruct (poll_due tp); [| reflexivity].
  destruct sr as [t | msg]; [| discriminate Hcut].
  destruct av as [|[|]]; reflexivity.
Qed.

(** From well-formed globals the rules run down to [time.sleep(1)]. *)
Lemma rules_complete (env : tick_env) (s : state) :
  invariant Basic s -> signal_of (evaluate_rules env s) = Next tt.
Proof.
  intros Hs. break_state s. destruct env as [tp sr ta te]. open_inv.
  destruct Hs as (([-> | ->] & Hot & Hnn & Hdb) & _).
  - destruct occ as [|n]; [discriminate (Hot eq_refl)|].
    destruct ts.
    + destruct (Hdb eq_refl) as [Hd _].
      destruct tet as [d|]; [| destruct (Hd eq_refl)].
      run_body. repeat (case_scrutinee; run_body); reflexivity.
    + run_body. repeat (case_scrutinee; run_body); reflexivity.
  - destruct ts.
    + destruct (Hdb eq_refl) as [Hd _].
      destruct tet as [d|]; [| destruct (Hd eq_refl)].
      run_body. repeat (case_scrutinee; run_body); reflexivity.
    + run_body. repeat (case_scrutinee; run_body); reflexivity.
Qed.

(** With somebody in the room, an iteration that is not cut short. *)
Lemma occupied_iteration (s : state) (env : tick_env) (n : Z) :
  roomOccupancy s = OccNum n ->
  0 < n ->
  cut_short env = false ->
  let r := main_loop_body env s in
  signal_of r = Next tt
  /\ systemMode (state_after r) = "quiet"
  /\ timeoutState (state_after r) = false
  /\ commands (effects_of r) =
       (if (systemMode s =? "quiet")%string then []
        else [(serverModeCommand, VStr "quiet")])
  /\ roomOccupancy (state_after r) = OccNum n.
Proof.
  break_state s. destruct env as [tp sr ta te].
  unfold cut_short. cbn [roomOccupancy systemMode now_poll sensor].
  intros -> Hpos Hcut.
  assert (Hgt : (n >? 0) = true) by (apply Z.gtb_lt; exact Hpos).
  assert (Hne : (n =? 0) = false) by (apply Z.eqb_neq; lia).
  cbv zeta.
  destruct (String.eqb_spec mode "quiet") as [-> | Hmode].
  - assert (Hq : ("quiet" =? "quiet")%string = true) by reflexivity.
    destruct (poll_due tp) eqn:Hp;
      [destruct sr as [t | msg]; [| discriminate Hcut] |];
      repeat (progress (run_py; rewrite ?Hp, ?Hgt, ?Hne, ?Hq));
      repeat (case_scrutinee;
              repeat (progress (run_py; rewrite ?Hp, ?Hgt, ?Hne, ?Hq)));
      repeat split; reflexivity.
  - assert (Hq : (mode =? "quiet")%string = false)
      by (apply String.eqb_neq; exact Hmode).
    destruct (poll_due tp) eqn:Hp;
      [destruct sr as [t | msg]; [| discriminate Hcut] |];
      repeat (progress (run_py; rewrite ?Hp, ?Hgt, ?Hne, ?Hq));
      repeat (case_scrutinee;
              repeat (progress (run_py; rewrite ?Hp, ?Hgt, ?Hne, ?Hq)));
      repeat split; reflexivity.
Qed.

(** From well-formed globals an iteration that is not cut short runs down
    to [time.sleep(1)]. *)
Lemma iteration_completes (env : tick_env) (s : state) :
  invariant Basic s -> cut_short env = false ->
  signal_of (main_loop_body env s) = Next tt.
Proof.
  intros Hs Hcut. unfold main_loop_body.
  pose proof (poll_passes env s Hcut) as Hpoll.
  rewrite (bind_next _ _ _ tt Hpoll). cbn [signal_of fst].
  apply rules_complete.
  refine (proj1 (preserves_when (invariant Basic) _ _ _ s Hs)).
  intros _. apply poll_block_inv.
Qed.

Lemma run_events_basic (es : list event) (s : state) :
  invariant Basic s -> invariant Basic (run_events es s).
Proof.
  revert s. induction es as [| e rest IH]; intros s Hs; [exact Hs |].
  apply (IH (step s e)). apply step_basic. exact Hs.
Qed.

(** The arming rule, in an iteration that is not cut short. *)
Lemma arming_iteration (s : state) (env : tick_env) :
  systemPowerState s = "on" ->
  roomOccupancy s = OccNum 0 ->
  timeoutState s = false ->
  cut_short env = false ->
  now_expiry env <= now_arm env + timeoutMinutes * 60 * microseconds ->
  let r := main_loop_body env s in
  timeoutState (state_after r) = true
  /\ timeoutEndTimestamp (state_after r)
     = Some (now_arm env + timeoutMinutes * 60 * microseconds).
Proof.
  break_state s. destruct env as [tp sr ta te]. unfold cut_short.
  cbn [systemPowerState roomOccupancy timeoutState
       now_expiry now_arm now_poll sensor].
  intros -> -> -> Hcut Hle.
  assert (Hgt : (te >? ta + timeoutMinutes * 60 * microseconds) = false)
    by (rewrite Z.gtb_ltb; apply Z.ltb_ge; exact Hle).
  cbv zeta. run_body.
  destruct (poll_due tp); [destruct sr as [t | msg]; [| discriminate Hcut] |];
    destruct av as [|[|]]; run_body; rewrite Hgt; run_body;
    split; reflexivity.
Qed.

(** The cancellation after a manual power-off, in an iteration that is not
    cut short. *)
Lemma off_cancel_iteration (s : state) (env : tick_env) :
  systemPowerState s = "off" ->
  timeoutState s = true ->
  deadline_bound s ->
  cut_short env = false ->
  timeoutState (state_after (main_loop_body env s)) = false.
Proof.
  break_state s. destruct env as [tp sr ta te].
  unfold deadline_bound, cut_short.
  cbn [systemPowerState timeoutState timeoutEndTimestamp timeoutEndTime
       now_poll sensor].
  intros -> -> Hdb Hcut.
  destruct (Hdb eq_refl) as [Hd _].
  destruct tet as [d|]; [| destruct (Hd eq_refl)].
  run_body.
  destruct (poll_due tp); [destruct sr as [t | msg]; [| discriminate Hcut] |];
    repeat (case_scrutinee; run_body); reflexivity.
Qed.

(** C8, as the specification states it, fails.  With the power on, one
    person in and the mode "super", the iteration at second 60 whose sensor
    read fails ends in [continue]: it sends no mode command and leaves the
    mode "super", where the same iteration with a good read sets it to
    "quiet".  With the room vacated, the same failing iteration does not arm
    the timer, where the one with a good read does. *)
Lemma failed_read_skips_rules :
  cut_short (failing_tick_at 60000000) = true
  /\ systemMode entered_state = "super"
  /\ roomOccupancy entered_state = OccNum 1
  /\ signal_of (main_loop_body (failing_tick_at 60000000) entered_state) = Exit
  /\ commands (effects_of (main_loop_body (failing_tick_at 60000000) entered_state))
     = []
  /\ systemMode (step entered_state (Iteration (failing_tick_at 60000000)))
     = "super"
  /\ systemMode (step entered_state (Iteration (tick_at 60000000))) = "quiet"
  /\ timeoutState (step vacated_state (Iteration (failing_tick_at 60000000)))
     = false
  /\ timeoutState (step vacated_state (Iteration (tick_at 60000000))) = true.
Proof.
  repeat split; reflexivity.
Qed.

(** C8, amended.  A failed sensor read is not fatal, but it ends the
    iteration at once: the iteration leaves by [continue] without an
    exception, it has reset [arduinoAvailable] (and [arduinoTemp], if the
    Arduino had not answered) and changed no other global, its effects are
    the log lines and the temperature request of the poll and the printed
    error, so the quiet-mode rule, the timer rules and the sleep are
    skipped.  After it, whatever messages and iterations come first, every
    iteration that is not cut short runs down to its sleep and applies the
    rules again: with somebody in the room it sends the mode command "quiet"
    unless the mode is "quiet" already, leaves the mode "quiet" and cancels
    the timer; with the power on, the room empty and the timer idle it arms
    the timer; with the timer past its deadline it switches the power off;
    and with the power off and the timer running it cancels the timer. *)
Theorem failed_read_ends_iteration (s : state) (env : tick_env) :
  invariant Basic s ->
  cut_short env = true ->
  let r := main_loop_body env s in
  signal_of r = Exit
  /\ state_after r =
       set_arduinoAvailable (Avail false)
         (if avail_is_false (arduinoAvailable s)
          then set_arduinoTemp None s else s)
  /\ effects_of r =
       (if avail_is_false (arduinoAvailable s)
        then [Publish serverLogNotice (VLog LogArduinoNoResponse)] else [])
       ++ [Publish serverLogNotice (VLog LogRequestingTemp);
           Publish serverTempRequest (VStr "0");
           Print (failure_message env)]
  /\ commands (effects_of r) = []
  /\ forall (es : list event) (env' : tick_env),
       cut_short env' = false ->
       let s' := run_events es (state_after r) in
       let r' := main_loop_body env' s' in
       signal_of r' = Next tt
       /\ (forall n,
              roomOccupancy s' = OccNum n -> 0 < n ->
              systemMode (state_after r') = "quiet"
              /\ timeoutState (state_after r') = false
              /\ commands (effects_of r') =
                   (if (systemMode s' =? "quiet")%string then []
                    else [(serverModeCommand, VStr "quiet")]))
       /\ (systemPowerState s' = "on" ->
           roomOccupancy s' = OccNum 0 ->
           timeoutState s' = false ->
           now_expiry env' <= now_arm env' + timeoutMinutes * 60 * microseconds ->
           timeoutState (state_after r') = true
           /\ timeoutEndTimestamp (state_after r')
              = Some (now_arm env' + timeoutMinutes * 60 * microseconds))
       /\ (forall d,
              systemPowerState s' = "on" ->
              roomOccupancy s' = OccNum 0 ->
              timeoutState s' = true ->
              timeoutEndTimestamp s' = Some d ->
              d < now_expiry env' ->
              systemPowerState (state_after r') = "off"
              /\ timeoutState (state_after r') = false
              /\ commands (effects_of r') = [(serverPowerCommand, VStr "off")])
       /\ (systemPowerState s' = "off" ->
           timeoutState s' = true ->
           timeoutState (state_after r') = false).
Proof.
  intros Hs Hcut r.
  assert (Hr : invariant Basic (state_after r)).
  { subst r. refine (proj1 (main_loop_inv Basic env _ s Hs)). discriminate. }
  assert (Hfirst :
    signal_of r = Exit
    /\ state_after r =
         set_arduinoAvailable (Avail false)
           (if avail_is_false (arduinoAvailable s)
            then set_arduinoTemp None s else s)
    /\ effects_of r =
         (if avail_is_false (arduinoAvailable s)
          then [Publish serverLogNotice (VLog LogArduinoNoResponse)] else [])
         ++ [Publish serverLogNotice (VLog LogRequestingTemp);
             Publish serverTempRequest (VStr "0");
             Print (failure_message env)]
    /\ commands (effects_of r) = []).
  { subst r. clear Hr Hs. break_state s. destruct env as [tp sr ta te].
    unfold cut_short in Hcut. cbn [now_poll sensor] in Hcut.
    unfold failure_message. cbn [sensor].
    destruct (poll_due tp) eqn:Hp; [| discriminate Hcut].
    destruct sr as [t | msg]; [discriminate Hcut |].
    run_body. rewrite Hp.
    destruct av as [|[|]]; repeat split; reflexivity. }
  destruct Hfirst as (H1 & H2 & H3 & H4).
  repeat (split; [assumption |]).
  intros es env' Hcut' s' r'.
  assert (Hs' : invariant Basic s').
  { subst s'. apply run_events_basic. exact Hr. }
  split; [apply iteration_completes; assumption |].
  split; [| split; [| split]].
  - intros n Hocc Hpos.
    destruct (occupied_iteration s' env' n Hocc Hpos Hcut')
      as (_ & Q2 & Q3 & Q4 & _).
    repeat split; assumption.
  - intros Hon Hocc Hidle Hle.
    apply (arming_iteration s' env' Hon Hocc Hidle Hcut' Hle).
  - intros d Hon Hocc Hts Hd Hlt.
    destruct (expiry_outcome s' env' d Hon Hocc Hts Hd Hcut' Hlt)
      as (E1 & _ & E3 & _ & E5).
    repeat split; assumption.
  - intros Hoff Hts.
    apply (off_cancel_iteration s' env' Hoff Hts); [| exact Hcut'].
    apply Hs'.
Qed.

Lemma failed_read_ends_iteration_witness :
  invariant Basic entered_state
  /\ cut_short (failing_tick_at 60000000) = true
  /\ cut_short (tick_at 61000000) = false
  /\ signal_of (main_loop_body (failing_tick_at 60000000) entered_state) = Exit
  /\ systemMode
       (state_after (main_loop_body (failing_tick_at 60000000) entered_state))
     = "super"
  /\ systemMode
       (state_after
          (main_loop_body (tick_at 61000000)
             (run_events []
                (state_after
                   (main_loop_body (failing_tick_at 60000000) entered_state)))))
     = "quiet".
Proof.
  assert (Hs : invariant Basic entered_state).
  { apply (reachable_basic any_event).
    apply reachable_run; [apply reach_init |]. simpl. unfold any_event. tauto. }
  destruct (failed_read_ends_iteration entered_state
              (failing_tick_at 60000000) Hs eq_refl) as (H1 & _ & _ & _ & H5).
  split; [exact Hs |]. split; [reflexivity |]. split; [reflexivity |].
  split; [exact H1 |]. split; [reflexivity |].
  destruct (H5 [] (tick_at 61000000) eq_refl) as (_ & Hquiet & _).
  assert (Hpos : 0 < 1) by lia.
  exact (proj1 (Hquiet 1 eq_refl Hpos)).
Defined.

(** ** No unbound or ill-typed read *)

(** C9.  Along every run of messages, on any topic, and iterations, the
    power is one of the two literals, and while it is "on" the occupancy is
    a number, not negative; so the delta handler, which returns at once when
    the power is "off", never adds a delta to the string "N/A": it raises
    nothing, whatever the payload. *)
Theorem occupancy_number_while_on (s : state) :
  reachable_by any_event s ->
  (systemPowerState s = "on" \/ systemPowerState s = "off")
  /\ (systemPowerState s = "on" ->
      exists n, roomOccupancy s = OccNum n /\ 0 <= n)
  /\ forall payload, no_raise (on_message arduinoOccChangeNotice payload s).
Proof.
  intros Hr. pose proof (reachable_basic _ s Hr) as Hs.
  split; [| split].
  - apply Hs.
  - intros Hon. destruct Hs as ((_ & Hot & Hnn & _) & _).
    specialize (Hot Hon). unfold is_number in Hot.
    destruct (roomOccupancy s) as [|n] eqn:Hocc; [discriminate Hot |].
    exists n. split; [reflexivity | apply Hnn; exact Hocc].
  - intros payload. apply (on_message_basic arduinoOccChangeNotice payload s Hs).
Qed.

Lemma occupancy_number_while_on_witness :
  reachable_by any_event occupied_state
  /\ systemPowerState occupied_state = "on"
  /\ exists n, roomOccupancy occupied_state = OccNum n /\ 0 <= n.
Proof.
  assert (Hr : reachable_by any_event occupied_state).
  { apply reachable_run; [apply reach_init |]. simpl. unfold any_event. tauto. }
  split; [exact Hr |]. split; [reflexivity |].
  destruct (occupancy_number_while_on occupied_state Hr) as (_ & Hnum & _).
  apply Hnum. reflexivity.
Defined.

(** C10.  Along every run of messages, on any topic, and iterations, while
    [timeoutState] is [True] both [timeoutEndTimestamp] and [timeoutEndTime]
    are bound; so neither an iteration of the main loop, with its expiry
    comparison, nor the refresh handler, with its formatting of the
    deadline, raises. *)
Theorem deadline_assigned_while_armed (s : state) :
  reachable_by any_event s ->
  (timeoutState s = true ->
   exists d d', timeoutEndTimestamp s = Some d /\ timeoutEndTime s = Some d')
  /\ (forall env, no_raise (main_loop_body env s))
  /\ (forall payload, no_raise (on_message userRefreshRequest payload s)).
Proof.
  intros Hr. pose proof (reachable_basic _ s Hr) as Hs.
  split; [| split].
  - intros Hts. destruct Hs as ((_ & _ & _ & Hdb) & _).
    destruct (Hdb Hts) as [H1 H2].
    destruct (timeoutEndTimestamp s) as [d|]; [| destruct (H1 eq_refl)].
    destruct (timeoutEndTime s) as [d'|]; [| destruct (H2 eq_refl)].
    exists d, d'. split; reflexivity.
  - intros env. apply (step_basic s (Iteration env) Hs).
  - intros payload. apply (on_message_basic userRefreshRequest payload s Hs).
Qed.

Lemma deadline_assigned_while_armed_witness :
  reachable_by any_event armed_state
  /\ timeoutState armed_state = true
  /\ exists d d',
       timeoutEndTimestamp armed_state = Some d
       /\ timeoutEndTime armed_state = Some d'.
Proof.
  assert (Hr : reachable_by any_event armed_state).
  { apply reach_step; [| exact I]. apply reach_step; [| exact I].
    apply reachable_run; [apply reach_init |]. simpl. unfold any_event. tauto. }
  split; [exact Hr |]. split; [reflexivity |].
  destruct (deadline_assigned_while_armed armed_state Hr) as (Hd & _ & _).
  apply Hd. reflexivity.
Defined.

(** * Further properties of the handlers and of the main loop *)

(** ** The builtins at their edges *)

(** Only tab to carriage return and the space are skipped around a number:
    the separators 0x1C to 0x1F are not; and [int] refuses more than 4300
    digits. *)
Example py_int_edges :
  py_int (String (ascii_of_nat 9) "21") = Some 21
  /\ py_int (String (ascii_of_nat 28) "21") = None
  /\ py_int (String (ascii_of_nat 31) "1") = None
  /\ py_float (String (ascii_of_nat 28) "1.5") = None
  /\ py_float (String (ascii_of_nat 13) "1.5") = Some (FNum 15 (-1))
  /\ py_int (repeat_char "0" 4300) = Some 0
  /\ py_int (repeat_char "0" 4301) = None.
Proof. repeat split; vm_compute; reflexivity. Qed.

(** ** Predicates kept by every body *)

Lemma keeps_bind {A B : Type} (Q : state -> Prop) (m : M A) (f : A -> M B) :
  keeps Q m -> (forall a, keeps Q (f a)) -> keeps Q (bind m f).
Proof.
  intros Hm Hf s Hs. specialize (Hm s Hs).
  unfold bind, state_after in *.
  destruct (m s) as [[[a| |e] s1] o1]; simpl in *; try exact Hm.
  specialize (Hf a s1 Hm). unfold state_after in Hf.
  destruct (f a s1) as [[r s2] o2]; simpl in *. exact Hf.
Qed.

Lemma keeps_when (Q : state -> Prop) (b : bool) (m : M unit) :
  (b = true -> keeps Q m) -> keeps Q (when b m).
Proof.
  intros Hm. destruct b; simpl.
  - apply Hm. reflexivity.
  - intros s Hs. exact Hs.
Qed.

Lemma keeps_effect (Q : state -> Prop) (e : effect) : keeps Q (emit e).
Proof. intros s Hs. exact Hs. Qed.

Lemma keeps_write_log (Q : state -> Prop) (topic payload : string) :
  keeps Q (write_log topic payload).
Proof. intros s Hs. exact Hs. Qed.

Lemma on_message_keeps (Q : state -> Prop) (topic payload : string) :
  (topic = arduinoTempNotice -> keeps Q (handle_arduinoTempNotice payload)) ->
  keeps Q (handle_arduinoOccChangeNotice payload) ->
  keeps Q handle_userRefreshRequest ->
  keeps Q (handle_userPowerCommand payload) ->
  keeps Q (handle_userModeCommand payload) ->
  (topic = userTempCommand -> keeps Q (handle_userTempCommand payload)) ->
  keeps Q (handle_userUpdateOccCommand payload) ->
  keeps Q (on_message topic payload).
Proof.
  intros H1 H2 H3 H4 H5 H6 H7. unfold on_message.
  repeat (apply keeps_bind; [apply keeps_when; intros Ht | intros _]);
    try assumption.
  - apply H1. apply String.eqb_eq. exact Ht.
  - apply H6. apply String.eqb_eq. exact Ht.
  - apply keeps_when. intros _. apply keeps_write_log.
Qed.

Lemma main_loop_keeps (Q : state -> Prop) (env : tick_env) :
  keeps Q (poll_block env) ->
  keeps Q quiet_rule ->
  keeps Q (arm_check env) ->
  keeps Q reoccupy_cancel ->
  keeps Q (expiry_check env) ->
  keeps Q off_cancel ->
  keeps Q (main_loop_body env).
Proof.
  intros H1 H2 H3 H4 H5 H6. unfold main_loop_body, evaluate_rules.
  apply keeps_bind; [apply keeps_when; intros _; exact H1 | intros _].
  repeat (apply keeps_bind; [assumption | intros _]).
  apply keeps_effect.
Qed.

(** Runs a body on symbolic globals through all its branches. *)
Ltac all_branches := run_py; repeat (case_scrutinee; run_py).

Ltac keeps_by_cases Q :=
  let s := fresh "s" in
  let Hs := fresh "Hs" in
  intros s Hs; break_state s; unfold Q in *;
  cbn [arduinoAvailable arduinoTemp rpiTemp roomOccupancy priorRoomOccupancy
       systemMode systemTargetTemp systemPowerState timeoutState
       timeoutEndTimestamp timeoutEndTime] in *;
  all_branches; auto.

(** ** The target temperature *)

Lemma valid_temp_range (t : Z) :
  int_in t validTemps = (16 <=? t) && (t <=? 25).
Proof.
  unfold int_in, validTemps. cbn [existsb].
  destruct (Z.leb_spec 16 t), (Z.leb_spec t 25); cbn [andb];
    repeat match goal with
      | |- context [Z.eqb t ?k] => destruct (Z.eqb_spec t k); [reflexivity |]
      end; cbn [orb]; try reflexivity; lia.
Qed.

Lemma step_target_valid (s : state) (e : event) :
  target_valid s -> target_valid (step s e).
Proof.
  destruct e as [topic payload | env]; unfold step, exec; revert s.
  - apply on_message_keeps; intros; keeps_by_cases target_valid.
  - destruct env as [tp sr ta te].
    apply main_loop_keeps; keeps_by_cases target_valid.
Qed.

(** X1.  Along every run of messages, on any topic, and iterations, the
    target temperature is one of the valid temperatures: an integer from 16
    to 25. *)
Theorem target_temp_in_range (s : state) :
  reachable_by any_event s ->
  int_in (systemTargetTemp s) validTemps = true
  /\ 16 <= systemTargetTemp s <= 25.
Proof.
  intros Hr.
  assert (Hv : target_valid s).
  { induction Hr as [| s e _ IH _]; [reflexivity |].
    apply step_target_valid. exact IH. }
  split; [exact Hv |].
  unfold target_valid in Hv. rewrite valid_temp_range in Hv.
  apply andb_true_iff in Hv. destruct Hv as [H1 H2].
  apply Z.leb_le in H1. apply Z.leb_le in H2. lia.
Qed.

Lemma target_temp_in_range_witness :
  reachable_by any_event (step initial_state (Message userTempCommand "21"))
  /\ systemTargetTemp (step initial_state (Message userTempCommand "21")) = 21
  /\ 16 <= 21 <= 25.
Proof.
  assert (Hr : reachable_by any_event
                 (step initial_state (Message userTempCommand "21"))).
  { apply reach_step; [apply reach_init | exact I]. }
  split; [exact Hr |]. split; [reflexivity |].
  exact (proj2 (target_temp_in_range _ Hr)).
Defined.

(** X2.  For a payload of ASCII characters: a temperature command whose
    payload is an integer from 16 to 25 is forwarded to the actuator and
    stored; any other payload, an integer out of range or no integer at
    all, changes no global and sends no command, only a log line. *)
Theorem temp_command_outcome (s : state) (payload : string) :
  is_ascii payload = true ->
  let r := on_message userTempCommand payload s in
  signal_of r = Next tt
  /\ match py_int payload with
     | Some t =>
         if (16 <=? t) && (t <=? 25)
         then state_after r = set_systemTargetTemp t s
              /\ effects_of r =
                   [Publish serverTempCommand (VInt t);
                    Publish serverLogNotice (VLog (LogTempForwarded t))]
         else state_after r = s
              /\ effects_of r =
                   [Publish serverLogNotice (VLog (LogTempOutOfRange t 16 25))]
     | None =>
         state_after r = s
         /\ effects_of r =
              [Publish serverLogNotice (VLog (LogInvalidTargetTemp payload))]
     end.
Proof.
  intros _. break_state s. cbv zeta.
  destruct (py_int payload) as [t|] eqn:Hp.
  - rewrite <- valid_temp_range.
    destruct (int_in t validTemps) eqn:Hin; run_body; rewrite Hp; run_body;
      rewrite Hin; repeat split; reflexivity.
  - run_body. rewrite Hp. repeat split; reflexivity.
Qed.

Lemma temp_command_outcome_witness :
  is_ascii "30" = true
  /\ py_int "30" = Some 30
  /\ state_after (on_message userTempCommand "30" initial_state)
     = initial_state
  /\ effects_of (on_message userTempCommand "30" initial_state)
     = [Publish serverLogNotice (VLog (LogTempOutOfRange 30 16 25))].
Proof.
  split; [reflexivity |]. split; [reflexivity |].
  exact (proj2 (temp_command_outcome initial_state "30" eq_refl)).
Defined.

(** X3.  Only a temperature command changes the target temperature: every
    other message, on any topic, and every iteration of the main loop leave
    it as it is, so it survives power cycles and timeouts. *)
Theorem target_temp_frame (s : state) (e : event) :
  is_temp_command e = false ->
  systemTargetTemp (step s e) = systemTargetTemp s.
Proof.
  intros He. remember (systemTargetTemp s) as t0 eqn:Ht0.
  assert (Hk : keeps (fun s' => systemTargetTemp s' = t0) (exec e)).
  { clear Ht0. destruct e as [topic payload | env]; unfold exec.
    - apply on_message_keeps; intros;
        try (intros s' Hs'; break_state s'; cbn [systemTargetTemp] in *;
             subst t0; all_branches; reflexivity).
      subst topic. vm_compute in He. discriminate He.
    - destruct env as [tp sr ta te].
      apply main_loop_keeps;
        intros s' Hs'; break_state s'; cbn [systemTargetTemp] in *;
        subst t0; all_branches; reflexivity. }
  apply (Hk s). symmetry. exact Ht0.
Qed.

Lemma target_temp_frame_witness :
  is_temp_command (Message userPowerCommand "off") = false
  /\ systemTargetTemp
       (step (step initial_state (Message userTempCommand "21"))
          (Message userPowerCommand "off")) = 21.
Proof.
  split; [reflexivity |].
  rewrite (target_temp_frame _ (Message userPowerCommand "off") eq_refl).
  reflexivity.
Defined.

(** ** The mode and the two names of the deadline *)

Lemma step_mode_known (s : state) (e : event) :
  mode_known s -> mode_known (step s e).
Proof.
  destruct e as [topic payload | env]; unfold step, exec; revert s.
  - apply on_message_keeps; intros; keeps_by_cases mode_known.
  - destruct env as [tp sr ta te].
    apply main_loop_keeps; keeps_by_cases mode_known.
Qed.

(** X4.  Along every run of messages, on any topic, and iterations, the
    mode is "N/A", "quiet", "super" or "cooling". *)
Theorem mode_always_known (s : state) :
  reachable_by any_event s ->
  systemMode s = "N/A" \/ systemMode s = "quiet"
  \/ systemMode s = "super" \/ systemMode s = "cooling".
Proof.
  intros Hr.
  assert (Hk : mode_known s).
  { induction Hr as [| s e _ IH _]; [left; reflexivity |].
    apply step_mode_known. exact IH. }
  destruct Hk as [Hk | Hk]; [left; exact Hk | right].
  unfold str_in, validModes in Hk. cbn [existsb] in Hk.
  destruct (String.eqb_spec (systemMode s) "quiet"); [tauto |].
  destruct (String.eqb_spec (systemMode s) "super"); [tauto |].
  destruct (String.eqb_spec (systemMode s) "cooling"); [tauto |].
  discriminate Hk.
Qed.

Lemma mode_always_known_witness :
  reachable_by any_event (step initial_state (Message userModeCommand "cooling"))
  /\ systemMode (step initial_state (Message userModeCommand "cooling"))
     = "cooling".
Proof.
  assert (Hr : reachable_by any_event
                 (step initial_state (Message userModeCommand "cooling"))).
  { apply reach_step; [apply reach_init | exact I]. }
  split; [exact Hr |].
  destruct (mode_always_known _ Hr) as [H | [H | [H | H]]];
    try discriminate H. exact H.
Defined.

Lemma step_deadlines_agree (s : state) (e : event) :
  deadlines_agree s -> deadlines_agree (step s e).
Proof.
  destruct e as [topic payload | env]; unfold step, exec; revert s.
  - apply on_message_keeps; intros; keeps_by_cases deadlines_agree.
  - destruct env as [tp sr ta te].
    apply main_loop_keeps; keeps_by_cases deadlines_agree.
Qed.

(** X5.  Along every run, the deadline the refresh handler shows
    ([timeoutEndTime]) is the deadline the main loop compares the clock with
    ([timeoutEndTimestamp]): both are unbound, or both hold the same
    instant. *)
Theorem shown_deadline_is_enforced (s : state) :
  reachable_by any_event s -> timeoutEndTime s = timeoutEndTimestamp s.
Proof.
  intros Hr. symmetry.
  induction Hr as [| s e _ IH _]; [reflexivity |].
  apply step_deadlines_agree. exact IH.
Qed.

Lemma shown_deadline_is_enforced_witness :
  reachable_by any_event armed_state
  /\ timeoutEndTime armed_state = Some 302000000
  /\ timeoutEndTimestamp armed_state = Some 302000000.
Proof.
  assert (Hr : reachable_by any_event armed_state).
  { apply reach_step; [| exact I]. apply reach_step; [| exact I].
    apply reachable_run; [apply reach_init |]. simpl. unfold any_event. tauto. }
  split; [exact Hr |].
  rewrite (shown_deadline_is_enforced armed_state Hr).
  split; reflexivity.
Defined.

(** ** Power commands *)

(** X6.  A power command whose payload is not exactly "on" or "off" changes
    no global and sends nothing to the actuator: its only effect is the log
    line naming the payload. *)
Theorem power_command_rejected (s : state) (payload : string) :
  str_in payload validPowerStates = false ->
  on_message userPowerCommand payload s =
    (Exit, s, [Publish serverLogNotice (VLog (LogInvalidPower payload))]).
Proof.
  intros Hin. break_state s. run_body. rewrite Hin. reflexivity.
Qed.

Lemma power_command_rejected_witness :
  str_in "ON" validPowerStates = false
  /\ state_after (on_message userPowerCommand "ON" initial_state)
     = initial_state.
Proof.
  split; [reflexivity |].
  rewrite (power_command_rejected initial_state "ON" eq_refl). reflexivity.
Defined.

(** The power command "off" while the power is on. *)
Lemma power_off_when_on (s : state) :
  systemPowerState s = "on" ->
  on_message userPowerCommand "off" s =
    (Exit,
     set_systemPowerState "off"
       (set_systemMode "N/A" (set_roomOccupancy OccNA s)),
     [Publish serverPowerCommand (VStr "off");
      Publish serverLogNotice (VLog (LogPowerForwarded "off"))]).
Proof.
  break_state s. cbn [systemPowerState]. intros ->. reflexivity.
Qed.

(** X7.  Switching a powered-off system, with mode and occupancy "N/A", on
    and off again restores every global: the occupancy count and the mode
    set by the power-on are dropped. *)
Theorem power_cycle_restores (s : state) :
  systemPowerState s = "off" ->
  systemMode s = "N/A" ->
  roomOccupancy s = OccNA ->
  step (step s (Message userPowerCommand "on")) (Message userPowerCommand "off")
  = s.
Proof.
  break_state s. cbn [systemPowerState systemMode roomOccupancy].
  intros -> -> ->. reflexivity.
Qed.

Lemma power_cycle_restores_witness :
  systemPowerState initial_state = "off"
  /\ systemMode initial_state = "N/A"
  /\ roomOccupancy initial_state = OccNA
  /\ step (step initial_state (Message userPowerCommand "on"))
       (Message userPowerCommand "off") = initial_state.
Proof.
  repeat (split; [reflexivity |]).
  apply power_cycle_restores; reflexivity.
Defined.

(** X8.  A power command "off" while the power is on leaves the timer flag
    as it was; the next iteration of the main loop that is not cut short
    leaves the timer idle, with the power still "off" and the mode and the
    occupancy still "N/A". *)
Theorem manual_off_cancels_timer (s : state) (env : tick_env) :
  systemPowerState s = "on" ->
  deadline_bound s ->
  cut_short env = false ->
  let s1 := step s (Message userPowerCommand "off") in
  let s2 := step s1 (Iteration env) in
  timeoutState s1 = timeoutState s
  /\ timeoutState s2 = false
  /\ systemPowerState s2 = "off"
  /\ systemMode s2 = "N/A"
  /\ roomOccupancy s2 = OccNA.
Proof.
  intros Hon Hdb Hcut s1 s2.
  assert (Hs1 : s1 = set_systemPowerState "off"
                       (set_systemMode "N/A" (set_roomOccupancy OccNA s))).
  { subst s1. unfold step, exec. rewrite (power_off_when_on s Hon).
    reflexivity. }
  subst s2. rewrite Hs1. clear Hs1 s1.
  break_state s. destruct env as [tp sr ta te].
  unfold deadline_bound, cut_short in *.
  cbn [systemPowerState timeoutState timeoutEndTimestamp timeoutEndTime
       now_poll sensor] in *.
  subst power. split; [reflexivity |].
  destruct ts.
  - destruct (Hdb eq_refl) as [Hd _].
    destruct tet as [d|]; [| destruct (Hd eq_refl)].
    run_body. destruct (poll_due tp); run_body.
    + destruct sr as [t | msg]; [| discriminate Hcut].
      destruct av as [|[|]]; run_body; destruct (te >? d); run_body;
        repeat split; reflexivity.
    + destruct (te >? d); run_body; repeat split; reflexivity.
  - run_body. destruct (poll_due tp); run_body.
    + destruct sr as [t | msg]; [| discriminate Hcut].
      destruct av as [|[|]]; run_body; repeat split; reflexivity.
    + repeat split; reflexivity.
Qed.

Lemma manual_off_cancels_timer_witness :
  systemPowerState armed_state = "on"
  /\ deadline_bound armed_state
  /\ cut_short (tick_at 3000000) = false
  /\ timeoutState (step armed_state (Message userPowerCommand "off")) = true
  /\ timeoutState
       (step (step armed_state (Message userPowerCommand "off"))
          (Iteration (tick_at 3000000))) = false.
Proof.
  assert (Hdb : deadline_bound armed_state).
  { intros _. vm_compute. split; discriminate. }
  destruct (manual_off_cancels_timer armed_state (tick_at 3000000)
              eq_refl Hdb eq_refl) as (H1 & H2 & _).
  split; [reflexivity |]. split; [exact Hdb |]. split; [reflexivity |].
  split; [rewrite H1; reflexivity | exact H2].
Defined.

(** ** Occupancy deltas and overrides *)

(** X9.  An occupancy delta received while the power is "off" is ignored
    entirely: no global changes and nothing is sent, not even a log line,
    whatever the payload. *)
Theorem delta_ignored_while_off (s : state) (payload : string) :
  systemPowerState s = "off" ->
  on_message arduinoOccChangeNotice payload s = (Exit, s, []).
Proof.
  break_state s. cbn [systemPowerState]. intros ->. reflexivity.
Qed.

Lemma delta_ignored_while_off_witness :
  systemPowerState initial_state = "off"
  /\ on_message arduinoOccChangeNotice "not a number" initial_state
     = (Exit, initial_state, []).
Proof.
  split; [reflexivity |].
  apply delta_ignored_while_off. reflexivity.
Defined.

(** X10.  While the power is on, a list of deltas received one after the
    other leaves the occupancy that results from adding each delta in turn
    and flooring at 0 after each addition, not from adding their sum: the
    power stays on. *)
Theorem deltas_fold (s : state) (payloads : list string) (deltas : list Z)
  (n : Z) :
  systemPowerState s = "on" ->
  roomOccupancy s = OccNum n ->
  map py_int payloads = map Some deltas ->
  let s' := run_events (map (Message arduinoOccChangeNotice) payloads) s in
  roomOccupancy s' = OccNum (apply_deltas n deltas)
  /\ systemPowerState s' = "on".
Proof.
  revert s deltas n.
  induction payloads as [| p rest IH]; intros s deltas n Hon Hocc Hmap.
  - destruct deltas; [| discriminate Hmap]. simpl. split; assumption.
  - destruct deltas as [| d ds]; [discriminate Hmap |].
    injection Hmap as Hd Hrest.
    assert (Hne : systemPowerState s <> "off") by (rewrite Hon; discriminate).
    cbn [map run_events fold_left].
    assert (Hstep : step s (Message arduinoOccChangeNotice p) =
              set_roomOccupancy (OccNum (apply_delta n d))
                (set_priorRoomOccupancy (Some (OccNum n)) s)).
    { unfold step, exec. rewrite (occ_change_result s p d n Hne Hd Hocc).
      reflexivity. }
    unfold run_events in IH. rewrite Hstep.
    apply (IH _ ds (apply_delta n d)); [| reflexivity | exact Hrest].
    break_state s. exact Hon.
Qed.

Lemma deltas_fold_witness :
  systemPowerState occupied_state = "on"
  /\ roomOccupancy occupied_state = OccNum 2
  /\ map py_int ["-5"; "1"] = map Some [-5; 1]
  /\ roomOccupancy
       (run_events (map (Message arduinoOccChangeNotice) ["-5"; "1"])
          occupied_state) = OccNum 1.
Proof.
  repeat (split; [reflexivity |]).
  exact (proj1 (deltas_fold occupied_state ["-5"; "1"] [-5; 1] 2
                  eq_refl eq_refl eq_refl)).
Defined.

(** X11.  An occupancy override with a figure of 0 or more is accepted
    while the power is off, and the figure survives the next power-on: the
    power-on resets the occupancy to 0 only when it is "N/A". *)
Theorem override_survives_power_on (s : state) (payload : string) (n : Z) :
  systemPowerState s = "off" ->
  py_int payload = Some n ->
  0 <= n ->
  let s1 := step s (Message userUpdateOccCommand payload) in
  let s2 := step s1 (Message userPowerCommand "on") in
  roomOccupancy s1 = OccNum n
  /\ systemPowerState s1 = "off"
  /\ roomOccupancy s2 = OccNum n
  /\ systemPowerState s2 = "on"
  /\ systemMode s2 = "super".
Proof.
  break_state s. cbn [systemPowerState]. intros -> Hn Hpos.
  assert (Hge : (n >=? 0) = true) by (apply Z.geb_le; exact Hpos).
  cbv zeta. run_body. rewrite Hn. run_body. rewrite Hge. run_body.
  repeat split; reflexivity.
Qed.

Lemma override_survives_power_on_witness :
  systemPowerState initial_state = "off"
  /\ py_int "3" = Some 3
  /\ 0 <= 3
  /\ roomOccupancy
       (step (step initial_state (Message userUpdateOccCommand "3"))
          (Message userPowerCommand "on")) = OccNum 3.
Proof.
  assert (Hpos : 0 <= 3) by lia.
  destruct (override_survives_power_on initial_state "3" 3
              eq_refl eq_refl Hpos) as (_ & _ & H & _).
  split; [reflexivity |]. split; [reflexivity |]. split; [exact Hpos |].
  exact H.
Defined.

(** ** How a sequence of two bodies runs *)

Lemma bind_run {A B : Type} (m : M A) (f : A -> M B) (s : state) :
  bind m f s =
    match signal_of (m s) with
    | Next a =>
        (signal_of (f a (state_after (m s))),
         state_after (f a (state_after (m s))),
         effects_of (m s) ++ effects_of (f a (state_after (m s))))
    | Exit => (Exit, state_after (m s), effects_of (m s))
    | Raise e => (Raise e, state_after (m s), effects_of (m s))
    end.
Proof.
  unfold bind, signal_of, state_after, effects_of.
  destruct (m s) as [[[a| |e] s1] o1]; simpl; try reflexivity.
  destruct (f a s1) as [[r s2] o2]. reflexivity.
Qed.

Lemma bind_state_keeps {A B : Type} (Q : state -> Prop) (m : M A)
  (f : A -> M B) (s : state) :
  Q (state_after (m s)) -> (forall a, keeps Q (f a)) ->
  Q (state_after (bind m f s)).
Proof.
  intros Hm Hf. rewrite bind_run.
  destruct (signal_of (m s)) as [a| |e]; try exact Hm.
  apply Hf. exact Hm.
Qed.

(** ** The liveness flag of the Arduino *)

(** The rules after the poll neither touch the temperature of the Arduino
    and its liveness flag nor log that it did not respond. *)
Lemma rules_leave_peer (env : tick_env) (s : state) :
  arduinoAvailable (state_after (evaluate_rules env s)) = arduinoAvailable s
  /\ arduinoTemp (state_after (evaluate_rules env s)) = arduinoTemp s
  /\ no_response_logged (effects_of (evaluate_rules env s)) = false.
Proof.
  break_state s. destruct env as [tp sr ta te].
  all_branches; repeat split; reflexivity.
Qed.

(** The poll alone, on each sensor outcome. *)
Lemma poll_block_peer (env : tick_env) (s : state) :
  let r := poll_block env s in
  arduinoAvailable (state_after r) = Avail false
  /\ arduinoTemp (state_after r)
     = (if avail_is_false (arduinoAvailable s) then None else arduinoTemp s)
  /\ no_response_logged (effects_of r) = avail_is_false (arduinoAvailable s).
Proof.
  break_state s. destruct env as [tp sr ta te].
  destruct av as [|[|]], sr; repeat split; reflexivity.
Qed.

(** An iteration that polls: the flag is reset, the temperature is dropped
    and the silence logged exactly when the flag was [False] already. *)
Lemma polling_iteration_peer (env : tick_env) (s : state) :
  poll_due (now_poll env) = true ->
  let r := main_loop_body env s in
  arduinoAvailable (state_after r) = Avail false
  /\ arduinoTemp (state_after r)
     = (if avail_is_false (arduinoAvailable s) then None else arduinoTemp s)
  /\ no_response_logged (effects_of r) = avail_is_false (arduinoAvailable s).
Proof.
  intros Hp. cbv zeta. unfold main_loop_body. rewrite Hp. cbn [when].
  rewrite bind_run.
  destruct (poll_block_peer env s) as (H1 & H2 & H3).
  destruct (signal_of (poll_block env s)) as [[]| |e];
    cbn [state_after effects_of signal_of fst snd];
    try (repeat split; assumption).
  destruct (rules_leave_peer env (state_after (poll_block env s)))
    as (R1 & R2 & R3).
  fold (state_after (poll_block env s)) in *.
  rewrite R1, R2. unfold no_response_logged in *.
  rewrite existsb_app, R3, orb_false_r.
  repeat split; assumption.
Qed.

(** X12.  A temperature report with a payload of ASCII characters marks
    the Arduino as available even when the payload is no number, in which
    case the last temperature is kept; the poll that follows finds the flag
    set, so it neither logs that the Arduino did not respond nor drops the
    temperature, and it resets the flag. *)
Theorem report_answers_poll (s : state) (payload : string) (env : tick_env) :
  is_ascii payload = true ->
  poll_due (now_poll env) = true ->
  let s1 := step s (Message arduinoTempNotice payload) in
  let r := main_loop_body env s1 in
  arduinoAvailable s1 = Avail true
  /\ arduinoTemp s1 =
       match py_float payload with
       | Some t => Some t
       | None => arduinoTemp s
       end
  /\ no_response_logged (effects_of r) = false
  /\ arduinoTemp (state_after r) = arduinoTemp s1
  /\ arduinoAvailable (state_after r) = Avail false.
Proof.
  intros _ Hp s1 r.
  assert (H1 : arduinoAvailable s1 = Avail true
               /\ arduinoTemp s1 =
                    match py_float payload with
                    | Some t => Some t
                    | None => arduinoTemp s
                    end).
  { subst s1. break_state s. run_body.
    destruct (py_float payload); split; reflexivity. }
  destruct H1 as [Hav Htemp].
  destruct (polling_iteration_peer env s1 Hp) as (P1 & P2 & P3).
  fold r in P1, P2, P3. rewrite Hav in P2, P3.
  repeat split; assumption.
Qed.

Lemma report_answers_poll_witness :
  is_ascii "hot" = true
  /\ py_float "hot" = None
  /\ poll_due (now_poll (tick_at 60000000)) = true
  /\ arduinoTemp (step initial_state (Message arduinoTempNotice "21.5"))
     = Some (FNum 215 (-1))
  /\ arduinoTemp
       (state_after
          (main_loop_body (tick_at 60000000)
             (step (step initial_state (Message arduinoTempNotice "21.5"))
                (Message arduinoTempNotice "hot"))))
     = Some (FNum 215 (-1)).
Proof.
  do 4 (split; [reflexivity |]).
  destruct (report_answers_poll
              (step initial_state (Message arduinoTempNotice "21.5"))
              "hot" (tick_at 60000000) eq_refl eq_refl)
    as (_ & H2 & _ & H4 & _).
  rewrite H4. exact H2.
Defined.

Lemma step_keeps_unavailable (s : state) (e : event) :
  is_temp_report e = false ->
  arduinoAvailable s = Avail false ->
  arduinoAvailable (step s e) = Avail false.
Proof.
  intros He. revert s.
  change (keeps (fun s => arduinoAvailable s = Avail false) (exec e)).
  destruct e as [topic payload | env]; unfold exec.
  - apply on_message_keeps; intros;
      try (intros s' Hs'; break_state s'; cbn [arduinoAvailable] in *;
           subst; all_branches; reflexivity).
    subst topic. vm_compute in He. discriminate He.
  - destruct env as [tp sr ta te].
    apply main_loop_keeps;
      intros s' Hs'; break_state s'; cbn [arduinoAvailable] in *;
      subst; all_branches; reflexivity.
Qed.

(** X13.  When two polls follow each other with no temperature report in
    between, whatever other messages and iterations come, the second poll
    logs that the Arduino did not respond and drops its temperature. *)
Theorem silent_peer_is_reported (s : state) (env1 env2 : tick_env)
  (es : list event) :
  poll_due (now_poll env1) = true ->
  poll_due (now_poll env2) = true ->
  forallb (fun e => negb (is_temp_report e)) es = true ->
  let s2 := run_events es (step s (Iteration env1)) in
  let r := main_loop_body env2 s2 in
  arduinoAvailable s2 = Avail false
  /\ no_response_logged (effects_of r) = true
  /\ arduinoTemp (state_after r) = None.
Proof.
  intros Hp1 Hp2 Hes s2 r.
  assert (Hs1 : arduinoAvailable (step s (Iteration env1)) = Avail false).
  { apply (polling_iteration_peer env1 s Hp1). }
  assert (Hs2 : arduinoAvailable s2 = Avail false).
  { subst s2. revert Hs1 Hes. generalize (step s (Iteration env1)).
    induction es as [| e rest IH]; intros s1 Hs1 Hes; [exact Hs1 |].
    cbn [forallb] in Hes. apply andb_true_iff in Hes. destruct Hes as [He Hrest].
    apply negb_true_iff in He. cbn [run_events fold_left].
    apply (IH (step s1 e)); [| exact Hrest].
    apply step_keeps_unavailable; assumption. }
  destruct (polling_iteration_peer env2 s2 Hp2) as (_ & P2 & P3).
  fold r in P2, P3. rewrite Hs2 in P2, P3.
  repeat split; assumption.
Qed.

Lemma silent_peer_is_reported_witness :
  poll_due (now_poll (tick_at 60000000)) = true
  /\ poll_due (now_poll (failing_tick_at 120000000)) = true
  /\ no_response_logged
       (effects_of
          (main_loop_body (failing_tick_at 120000000)
             (run_events [Message userPowerCommand "on"]
                (step (step initial_state (Message arduinoTempNotice "21.5"))
                   (Iteration (tick_at 60000000))))))
     = true.
Proof.
  split; [reflexivity |]. split; [reflexivity |].
  exact (proj1 (proj2 (silent_peer_is_reported
           (step initial_state (Message arduinoTempNotice "21.5"))
           (tick_at 60000000) (failing_tick_at 120000000)
           [Message userPowerCommand "on"] eq_refl eq_refl eq_refl))).
Defined.

(** ** The quiet-mode rule *)

(** With somebody in the room and the mode "quiet", an iteration sends no
    command. *)
Lemma quiet_occupied_silent (s : state) (env : tick_env) (n : Z) :
  roomOccupancy s = OccNum n ->
  0 < n ->
  systemMode s = "quiet" ->
  commands (effects_of (main_loop_body env s)) = [].
Proof.
  break_state s. destruct env as [tp sr ta te].
  cbn [roomOccupancy systemMode]. intros -> Hpos ->.
  assert (Hgt : (n >? 0) = true) by (apply Z.gtb_lt; exact Hpos).
  assert (Hne : (n =? 0) = false) by (apply Z.eqb_neq; lia).
  assert (Hq : ("quiet" =? "quiet")%string = true) by reflexivity.
  repeat (progress (run_py; rewrite ?Hgt, ?Hne, ?Hq));
    repeat (case_scrutinee;
            repeat (progress (run_py; rewrite ?Hgt, ?Hne, ?Hq)));
    reflexivity.
Qed.

(** X14.  With somebody in the room, an iteration that is not cut short
    runs to its sleep and leaves the mode "quiet" and the timer idle; it
    sends the mode command "quiet" only if the mode was not "quiet" already,
    and the iteration after it sends no command at all. *)
Theorem occupied_room_gets_quiet (s : state) (env env' : tick_env) (n : Z) :
  roomOccupancy s = OccNum n ->
  0 < n ->
  cut_short env = false ->
  let r := main_loop_body env s in
  signal_of r = Next tt
  /\ systemMode (state_after r) = "quiet"
  /\ timeoutState (state_after r) = false
  /\ commands (effects_of r) =
       (if (systemMode s =? "quiet")%string then []
        else [(serverModeCommand, VStr "quiet")])
  /\ commands (effects_of (main_loop_body env' (state_after r))) = [].
Proof.
  intros Hocc Hpos Hcut r.
  destruct (occupied_iteration s env n Hocc Hpos Hcut)
    as (H1 & H2 & H3 & H4 & H5).
  fold r in H1, H2, H3, H4, H5.
  repeat (split; [assumption |]).
  apply (quiet_occupied_silent (state_after r) env' n H5 Hpos H2).
Qed.

Lemma occupied_room_gets_quiet_witness :
  roomOccupancy entered_state = OccNum 1
  /\ 0 < 1
  /\ cut_short (tick_at 2000000) = false
  /\ commands (effects_of (main_loop_body (tick_at 2000000) entered_state))
     = [(serverModeCommand, VStr "quiet")]
  /\ commands
       (effects_of
          (main_loop_body (tick_at 3000000)
             (state_after (main_loop_body (tick_at 2000000) entered_state))))
     = [].
Proof.
  assert (Hpos : 0 < 1) by lia.
  destruct (occupied_room_gets_quiet entered_state (tick_at 2000000)
              (tick_at 3000000) 1 eq_refl Hpos eq_refl)
    as (_ & _ & _ & H4 & H5).
  split; [reflexivity |]. split; [exact Hpos |]. split; [reflexivity |].
  split; [exact H4 | exact H5].
Defined.

(** ** The timer *)

(** X15.  While the timer runs with the power on and the room empty, an
    iteration that is not cut short and whose clock is not past the deadline
    leaves the timer armed with the same deadline, the power on, the room
    empty and the mode as it was, and sends no command: a running timer is
    neither re-armed nor pushed back. *)
Theorem running_timer_is_kept (s : state) (env : tick_env) (d : Z) :
  systemPowerState s = "on" ->
  roomOccupancy s = OccNum 0 ->
  timeoutState s = true ->
  timeoutEndTimestamp s = Some d ->
  cut_short env = false ->
  now_expiry env <= d ->
  let r := main_loop_body env s in
  signal_of r = Next tt
  /\ timeoutState (state_after r) = true
  /\ timeoutEndTimestamp (state_after r) = Some d
  /\ timeoutEndTime (state_after r) = timeoutEndTime s
  /\ systemPowerState (state_after r) = "on"
  /\ roomOccupancy (state_after r) = OccNum 0
  /\ systemMode (state_after r) = systemMode s
  /\ commands (effects_of r) = [].
Proof.
  break_state s. destruct env as [tp sr ta te]. unfold cut_short.
  cbn [systemPowerState roomOccupancy timeoutState timeoutEndTimestamp
       timeoutEndTime systemMode now_expiry now_poll sensor].
  intros -> -> -> -> Hcut Hle.
  assert (Hgt : (te >? d) = false)
    by (rewrite Z.gtb_ltb; apply Z.ltb_ge; exact Hle).
  cbv zeta. run_body.
  destruct (poll_due tp); [destruct sr as [t | msg]; [| discriminate Hcut] |];
    destruct av as [|[|]]; run_body; rewrite Hgt; run_body;
    repeat split; reflexivity.
Qed.

Lemma running_timer_is_kept_witness :
  systemPowerState armed_state = "on"
  /\ roomOccupancy armed_state = OccNum 0
  /\ timeoutState armed_state = true
  /\ timeoutEndTimestamp armed_state = Some 302000000
  /\ cut_short (tick_at 302000000) = false
  /\ now_expiry (tick_at 302000000) <= 302000000
  /\ timeoutState (step armed_state (Iteration (tick_at 302000000))) = true.
Proof.
  assert (Hle : now_expiry (tick_at 302000000) <= 302000000)
    by (cbn; lia).
  destruct (running_timer_is_kept armed_state (tick_at 302000000) 302000000
              eq_refl eq_refl eq_refl eq_refl eq_refl Hle) as (_ & H & _).
  do 5 (split; [reflexivity |]). split; [exact Hle | exact H].
Defined.

(** X16.  The timer never switches the system off early: an iteration that
    sends the power command "off" read a clock strictly past the deadline,
    which is the deadline of the running timer or, if the timer was idle,
    the one the same iteration has just set, five minutes after its own
    clock. *)
Theorem timer_never_fires_early (s : state) (env : tick_env) :
  timer_fires s (Iteration env) = true ->
  exists d,
    d < now_expiry env
    /\ (if timeoutState s then timeoutEndTimestamp s = Some d
        else d = now_arm env + timeoutMinutes * 60 * microseconds).
Proof.
  break_state s. destruct env as [tp sr ta te]. unfold timer_fires.
  cbn [timeoutState timeoutEndTimestamp now_expiry now_arm].
  run_py. repeat (case_scrutinee; run_py); intros Hf;
    try discriminate Hf;
    (eexists; split; [apply Z.gtb_lt; eassumption | reflexivity]).
Qed.

Lemma timer_never_fires_early_witness :
  timer_fires armed_state (Iteration (tick_at 303000000)) = true
  /\ exists d, d < 303000000 /\ timeoutEndTimestamp armed_state = Some d.
Proof.
  split; [reflexivity |].
  destruct (timer_never_fires_early armed_state (tick_at 303000000) eq_refl)
    as (d & Hlt & Hd).
  exists d. split; [exact Hlt | exact Hd].
Defined.

(** X17.  After an iteration that is not cut short, the timer runs only
    with the power on and the room empty. *)
Theorem timer_runs_only_when_empty (s : state) (env : tick_env) :
  reachable_by any_event s ->
  cut_short env = false ->
  timeoutState (step s (Iteration env)) = true ->
  systemPowerState (step s (Iteration env)) = "on"
  /\ roomOccupancy (step s (Iteration env)) = OccNum 0.
Proof.
  intros Hr. pose proof (reachable_basic _ s Hr) as Hs. clear Hr.
  break_state s. destruct env as [tp sr ta te]. unfold cut_short.
  cbn [now_poll sensor]. open_inv.
  destruct Hs as (([-> | ->] & Hot & Hnn & Hdb) & _); intros Hcut.
  - destruct occ as [|n]; [discriminate (Hot eq_refl) |].
    specialize (Hnn n eq_refl).
    run_body. repeat (case_scrutinee; run_body); intros Hts;
      try discriminate Hts; try discriminate Hcut;
      repeat match goal with
        | H : (_ =? _) = true |- _ => apply Z.eqb_eq in H; subst
        | H : (_ =? _) = false |- _ => apply Z.eqb_neq in H
        | H : (_ >? _) = false |- _ =>
            rewrite Z.gtb_ltb in H; apply Z.ltb_ge in H
        end;
      try (split; reflexivity); try lia.
  - assert (Hd : ts = true -> tet <> None) by (intros H; apply (Hdb H)).
    run_body. repeat (case_scrutinee; run_body); intros Hts;
      try discriminate Hts; try discriminate Hcut;
      subst; destruct (Hd eq_refl eq_refl).
Qed.

Lemma timer_runs_only_when_empty_witness :
  reachable_by any_event vacated_state
  /\ cut_short (tick_at 2000000) = false
  /\ timeoutState (step vacated_state (Iteration (tick_at 2000000))) = true
  /\ roomOccupancy (step vacated_state (Iteration (tick_at 2000000)))
     = OccNum 0.
Proof.
  assert (Hr : reachable_by any_event vacated_state).
  { apply reach_step; [| exact I].
    apply reachable_run; [apply reach_init |]. simpl. unfold any_event. tauto. }
  split; [exact Hr |]. split; [reflexivity |]. split; [reflexivity |].
  exact (proj2 (timer_runs_only_when_empty vacated_state (tick_at 2000000)
                  Hr eq_refl eq_refl)).
Defined.

(** ** Requests and unhandled topics *)

(** X18.  A refresh request changes no global.  From every reachable state
    it raises nothing and publishes, in this order, the two temperatures,
    the power, the mode, the target temperature, the occupancy, the liveness
    flag and the timeout, which is "N/A" unless the power is on and the timer
    runs, and then its log line; none of these goes to the actuator. *)
Theorem refresh_is_read_only (s : state) (payload : string) :
  reachable_by any_event s ->
  on_message userRefreshRequest payload s =
    (Next tt, s,
     [Publish serverTempNotice_arduino (val_of_float (arduinoTemp s));
      Publish serverTempNotice_rpi (val_of_int (rpiTemp s));
      Publish serverPowerStateNotice (VStr (systemPowerState s));
      Publish serverModeNotice (VStr (systemMode s));
      Publish serverTargetTempNotice (VInt (systemTargetTemp s));
      Publish serverOccupancyNotice (val_of_occ (roomOccupancy s));
      Publish serverArduinoUpNotice (val_of_avail (arduinoAvailable s));
      Publish serverTimeoutNotice (timeout_notice s);
      Publish serverLogNotice (VLog LogRefresh)])
  /\ commands (effects_of (on_message userRefreshRequest payload s)) = [].
Proof.
  intros Hr. pose proof (reachable_basic _ s Hr) as Hs. clear Hr.
  break_state s. open_inv. unfold timeout_notice.
  cbn [systemPowerState timeoutState timeoutEndTime].
  destruct Hs as (([-> | ->] & _ & _ & Hdb) & _); run_body;
    try (split; reflexivity).
  destruct ts; run_body; try (split; reflexivity).
  destruct (Hdb eq_refl) as [_ Hd].
  destruct tt_ as [d|]; [| destruct (Hd eq_refl)].
  split; reflexivity.
Qed.

Lemma refresh_is_read_only_witness :
  reachable_by any_event armed_state
  /\ state_after (on_message userRefreshRequest "" armed_state) = armed_state
  /\ timeout_notice armed_state = VTimeHM 302000000.
Proof.
  assert (Hr : reachable_by any_event armed_state).
  { apply reach_step; [| exact I]. apply reach_step; [| exact I].
    apply reachable_run; [apply reach_init |]. simpl. unfold any_event. tauto. }
  split; [exact Hr |]. split; [| reflexivity].
  rewrite (proj1 (refresh_is_read_only armed_state "" Hr)). reflexivity.
Defined.

(** X19.  A message on a topic that [on_message] has no block for changes no
    global and raises nothing; if the topic contains "/notice/log", the
    message is appended to the log file and re-published on the global log,
    and otherwise nothing happens at all. *)
Theorem unhandled_topic_ignored (s : state) (topic payload : string) :
  ~ In topic handled_topics ->
  on_message topic payload s =
    (Next tt, s,
     if contains "/notice/log" topic
     then [AppendLog topic payload;
           Publish globalLog (VLogLine topic payload)]
     else []).
Proof.
  intros Hnot. unfold handled_topics in Hnot. cbn [In] in Hnot.
  assert (H1 : (topic =? arduinoTempNotice)%string = false)
    by (apply String.eqb_neq; intros ->; tauto).
  assert (H2 : (topic =? arduinoOccChangeNotice)%string = false)
    by (apply String.eqb_neq; intros ->; tauto).
  assert (H3 : (topic =? userRefreshRequest)%string = false)
    by (apply String.eqb_neq; intros ->; tauto).
  assert (H4 : (topic =? userPowerCommand)%string = false)
    by (apply String.eqb_neq; intros ->; tauto).
  assert (H5 : (topic =? userModeCommand)%string = false)
    by (apply String.eqb_neq; intros ->; tauto).
  assert (H6 : (topic =? userTempCommand)%string = false)
    by (apply String.eqb_neq; intros ->; tauto).
  assert (H7 : (topic =? userUpdateOccCommand)%string = false)
    by (apply String.eqb_neq; intros ->; tauto).
  unfold on_message. rewrite H1, H2, H3, H4, H5, H6, H7.
  destruct (contains "/notice/log" topic); reflexivity.
Qed.

Lemma unhandled_topic_ignored_witness :
  ~ In serverLogNotice handled_topics
  /\ on_message serverLogNotice "Requesting temperature from Arduino."
       initial_state
     = (Next tt, initial_state,
        [AppendLog serverLogNotice "Requesting temperature from Arduino.";
         Publish globalLog
           (VLogLine serverLogNotice "Requesting temperature from Arduino.")]).
Proof.
  assert (Hnot : ~ In serverLogNotice handled_topics).
  { unfold handled_topics. cbn [In]. intros H.
    repeat (destruct H as [H | H]; [discriminate H |]). exact H. }
  split; [exact Hnot |].
  rewrite (unhandled_topic_ignored initial_state serverLogNotice
             "Requesting temperature from Arduino." Hnot).
  reflexivity.
Defined.

(** ** What the main loop sends to the actuator *)

(** X20.  Whatever the globals and the inputs of an iteration, the only
    commands the main loop sends to the actuator are the mode command
    "quiet" and the power command "off": it never switches the power on,
    never sets another mode and never sends a temperature. *)
Theorem loop_commands (s : state) (env : tick_env) (c : string * pyval) :
  In c (commands (effects_of (main_loop_body env s))) ->
  c = (serverModeCommand, VStr "quiet") \/ c = (serverPowerCommand, VStr "off").
Proof.
  break_state s. destruct env as [tp sr ta te].
  all_branches; intros Hin; vm_compute in Hin;
    repeat (destruct Hin as [Hin | Hin];
            [subst c; ((left; reflexivity) || (right; reflexivity)) |]);
    destruct Hin.
Qed.

Lemma loop_commands_witness :
  In (serverModeCommand, VStr "quiet")
    (commands (effects_of (main_loop_body (tick_at 2000000) entered_state)))
  /\ ((serverModeCommand, VStr "quiet") = (serverModeCommand, VStr "quiet")
      \/ (serverModeCommand, VStr "quiet") = (serverPowerCommand, VStr "off")).
Proof.
  assert (Hin : In (serverModeCommand, VStr "quiet")
                  (commands (effects_of
                     (main_loop_body (tick_at 2000000) entered_state)))).
  { left. reflexivity. }
  split; [exact Hin |].
  exact (loop_commands entered_state (tick_at 2000000) _ Hin).
Defined.

(** ** What reaches the actuator *)

Ltac use_tests :=
  repeat match goal with
    | H : ?x = true |- context [?x] => rewrite H
    end.

(** The commands a message sends are valid if the stored target is. *)
Lemma message_commands_valid (s : state) (topic payload : string) :
  target_valid s ->
  forallb valid_command (commands (effects_of (on_message topic payload s)))
  = true.
Proof.
  break_state s. unfold target_valid. cbn [systemTargetTemp]. intros Ht.
  unfold on_message.
  destruct (String.eqb_spec topic arduinoTempNotice) as [-> | _];
    [run_body; all_branches; reflexivity |].
  destruct (String.eqb_spec topic arduinoOccChangeNotice) as [-> | _];
    [run_body; all_branches; reflexivity |].
  destruct (String.eqb_spec topic userRefreshRequest) as [-> | _];
    [run_body; all_branches; reflexivity |].
  destruct (String.eqb_spec topic userPowerCommand) as [-> | _];
    [run_body; all_branches; cbv - [str_in int_in validPowerStates validModes validTemps];
     use_tests; eval_tests; reflexivity |].
  destruct (String.eqb_spec topic userModeCommand) as [-> | _];
    [run_body; all_branches; cbv - [str_in int_in validPowerStates validModes validTemps];
     use_tests; eval_tests; reflexivity |].
  destruct (String.eqb_spec topic userTempCommand) as [-> | _];
    [run_body; all_branches; cbv - [str_in int_in validPowerStates validModes validTemps];
     use_tests; eval_tests; reflexivity |].
  destruct (String.eqb_spec topic userUpdateOccCommand) as [-> | _];
    [run_body; all_branches; reflexivity |].
  run_py. destruct (contains "/notice/log" topic); reflexivity.
Qed.

Lemma reachable_target_valid (s : state) :
  reachable_by any_event s -> target_valid s.
Proof.
  induction 1 as [| s e _ IH _]; [reflexivity |].
  apply step_target_valid. exact IH.
Qed.

(** X21.  Along every run, every command sent to the actuator, by a message
    handler or by the main loop, is well formed: a power command carries
    "on" or "off", a mode command one of the valid modes, a temperature
    command an integer from 16 to 25. *)
Theorem commands_are_valid (s : state) (e : event) :
  reachable_by any_event s ->
  forallb valid_command (commands (effects_of (exec e s))) = true.
Proof.
  intros Hr. destruct e as [topic payload | env]; unfold exec.
  - apply message_commands_valid. apply reachable_target_valid. exact Hr.
  - clear Hr. break_state s. destruct env as [tp sr ta te].
    all_branches; reflexivity.
Qed.

Lemma commands_are_valid_witness :
  reachable_by any_event (step initial_state (Message userTempCommand "21"))
  /\ commands
       (effects_of
          (exec (Message userPowerCommand "on")
             (step initial_state (Message userTempCommand "21"))))
     = [(serverPowerCommand, VStr "on"); (serverModeCommand, VStr "super");
        (serverTempCommand, VInt 21)]
  /\ forallb valid_command
       (commands
          (effects_of
             (exec (Message userPowerCommand "on")
                (step initial_state (Message userTempCommand "21")))))
     = true.
Proof.
  assert (Hr : reachable_by any_event
                 (step initial_state (Message userTempCommand "21"))).
  { apply reach_step; [apply reach_init | exact I]. }
  split; [exact Hr |]. split; [reflexivity |].
  exact (commands_are_valid _ (Message userPowerCommand "on") Hr).
Defined.

(** X22.  A power command that names the power state the system is already
    in changes no global; it is still forwarded to the actuator, as the only
    command. *)
Theorem power_command_repeated (s : state) (payload : string) :
  str_in payload validPowerStates = true ->
  systemPowerState s = payload ->
  state_after (on_message userPowerCommand payload s) = s
  /\ commands (effects_of (on_message userPowerCommand payload s))
     = [(serverPowerCommand, VStr payload)].
Proof.
  break_state s. cbn [systemPowerState]. intros Hin Hp. subst payload.
  unfold str_in, validPowerStates in Hin. cbn [existsb] in Hin.
  destruct (String.eqb_spec power "on") as [-> | _];
    [split; reflexivity |].
  destruct (String.eqb_spec power "off") as [-> | _];
    [split; reflexivity | discriminate Hin].
Qed.

Lemma power_command_repeated_witness :
  str_in "off" validPowerStates = true
  /\ systemPowerState initial_state = "off"
  /\ state_after (on_message userPowerCommand "off" initial_state)
     = initial_state
  /\ commands (effects_of (on_message userPowerCommand "off" initial_state))
     = [(serverPowerCommand, VStr "off")].
Proof.
  split; [reflexivity |]. split; [reflexivity |].
  exact (power_command_repeated initial_state "off" eq_refl eq_refl).
Defined.

(** X23.  With the power on, the room empty and the timer idle, an iteration
    that is not cut short, and whose last clock reading is not more than
    five minutes after the one it arms with, starts the timer: both names of
    the deadline are bound to the clock plus five minutes, every other global
    but those of the poll stays, and no command is sent. *)
Theorem empty_room_arms_timer (s : state) (env : tick_env) :
  systemPowerState s = "on" ->
  roomOccupancy s = OccNum 0 ->
  timeoutState s = false ->
  cut_short env = false ->
  now_expiry env <= now_arm env + timeoutMinutes * 60 * microseconds ->
  let r := main_loop_body env s in
  let deadline := now_arm env + timeoutMinutes * 60 * microseconds in
  signal_of r = Next tt
  /\ timeoutState (state_after r) = true
  /\ timeoutEndTimestamp (state_after r) = Some deadline
  /\ timeoutEndTime (state_after r) = Some deadline
  /\ systemPowerState (state_after r) = "on"
  /\ roomOccupancy (state_after r) = OccNum 0
  /\ systemMode (state_after r) = systemMode s
  /\ commands (effects_of r) = [].
Proof.
  break_state s. destruct env as [tp sr ta te]. unfold cut_short.
  cbn [systemPowerState roomOccupancy timeoutState systemMode
       now_expiry now_arm now_poll sensor].
  intros -> -> -> Hcut Hle.
  assert (Hgt : (te >? ta + timeoutMinutes * 60 * microseconds) = false)
    by (rewrite Z.gtb_ltb; apply Z.ltb_ge; exact Hle).
  cbv zeta. run_body.
  destruct (poll_due tp); [destruct sr as [t | msg]; [| discriminate Hcut] |];
    destruct av as [|[|]]; run_body; rewrite Hgt; run_body;
    repeat split; reflexivity.
Qed.

Lemma empty_room_arms_timer_witness :
  systemPowerState vacated_state = "on"
  /\ roomOccupancy vacated_state = OccNum 0
  /\ timeoutState vacated_state = false
  /\ cut_short (tick_at 2000000) = false
  /\ timeoutEndTimestamp
       (state_after (main_loop_body (tick_at 2000000) vacated_state))
     = Some 302000000.
Proof.
  assert (Hle : now_expiry (tick_at 2000000)
                <= now_arm (tick_at 2000000)
                   + timeoutMinutes * 60 * microseconds)
    by (vm_compute; discriminate).
  destruct (empty_room_arms_timer vacated_state (tick_at 2000000)
              eq_refl eq_refl eq_refl eq_refl Hle) as (_ & _ & H & _).
  do 4 (split; [reflexivity |]). rewrite H. reflexivity.
Defined.

(** ** After the timer has fired *)

(** A powered-off system with no occupancy and no timer: an iteration
    sends no command and leaves it so. *)
Lemma off_system_silent (s : state) (env : tick_env) :
  systemPowerState s = "off" ->
  roomOccupancy s = OccNA ->
  timeoutState s = false ->
  let r := main_loop_body env s in
  commands (effects_of r) = []
  /\ systemPowerState (state_after r) = "off"
  /\ roomOccupancy (state_after r) = OccNA
  /\ timeoutState (state_after r) = false
  /\ systemMode (state_after r) = systemMode s.
Proof.
  break_state s. destruct env as [tp sr ta te].
  cbn [systemPowerState roomOccupancy timeoutState systemMode].
  intros -> -> ->. cbv zeta. run_body.
  destruct (poll_due tp); run_body; [| repeat split; reflexivity].
  destruct sr, av as [|[|]]; repeat split; reflexivity.
Qed.

(** X24.  When the timer runs with the power on and the room empty, an
    iteration that is not cut short and whose clock is past the deadline
    sends the power command "off" and nothing else to the actuator, switches
    the power off, clears the occupancy and the timer and does not touch the
    mode; the iterations that follow send no command and leave the system
    off, with the timer idle. *)
Theorem expired_timer_switches_off (s : state) (env env' : tick_env) (d : Z) :
  systemPowerState s = "on" ->
  roomOccupancy s = OccNum 0 ->
  timeoutState s = true ->
  timeoutEndTimestamp s = Some d ->
  cut_short env = false ->
  d < now_expiry env ->
  let r := main_loop_body env s in
  let r' := main_loop_body env' (state_after r) in
  commands (effects_of r) = [(serverPowerCommand, VStr "off")]
  /\ systemPowerState (state_after r) = "off"
  /\ roomOccupancy (state_after r) = OccNA
  /\ timeoutState (state_after r) = false
  /\ systemMode (state_after r) = systemMode s
  /\ commands (effects_of r') = []
  /\ systemPowerState (state_after r') = "off"
  /\ timeoutState (state_after r') = false.
Proof.
  intros Hon Hocc Hts Hd Hcut Hlt r r'.
  destruct (expiry_outcome s env d Hon Hocc Hts Hd Hcut Hlt)
    as (H1 & H2 & H3 & H4 & H5).
  fold r in H1, H2, H3, H4, H5.
  destruct (off_system_silent (state_after r) env' H1 H2 H3)
    as (S1 & S2 & _ & S4 & _).
  fold r' in S1, S2, S4.
  repeat split; assumption.
Qed.

Lemma expired_timer_switches_off_witness :
  systemPowerState armed_state = "on"
  /\ roomOccupancy armed_state = OccNum 0
  /\ timeoutState armed_state = true
  /\ timeoutEndTimestamp armed_state = Some 302000000
  /\ cut_short (tick_at 303000000) = false
  /\ 302000000 < now_expiry (tick_at 303000000)
  /\ commands (effects_of (main_loop_body (tick_at 303000000) armed_state))
     = [(serverPowerCommand, VStr "off")].
Proof.
  assert (Hlt : 302000000 < now_expiry (tick_at 303000000))
    by (vm_compute; reflexivity).
  destruct (expired_timer_switches_off armed_state (tick_at 303000000)
              (tick_at 304000000) 302000000
              eq_refl eq_refl eq_refl eq_refl eq_refl Hlt) as (H & _).
  do 5 (split; [reflexivity |]). split; [exact Hlt | exact H].
Defined.
